(** * openfisca_survey_manager.surveys: the [Survey] class

    A shallow embedding of [src/openfisca_survey_manager/surveys.py]
    (Python 2) and the properties of it that the specification states.

    Python objects are dynamically typed, so attribute values are kept in
    one value type [pyval]; a [dict] is a finite map ([gmap]), a
    [collections.OrderedDict] is an association list in insertion order.
    Exceptions are explicit results.  The one piece of state that outlives
    a method call, the class attribute [Survey.tables_index], lives in a
    [heap] that is threaded through the methods touching it, together with
    the records emitted on the module logger. *)

From stdpp Require Import gmap strings list fin_maps sorting.
From Stdlib Require Import ZArith Ascii String.

Set Warnings "-register-all".
Set Default Proof Using "Type".
Local Open Scope string_scope.
Local Open Scope list_scope.

(** ** Python values *)

Inductive pyval :=
  | PNone
  | PBool (b : bool)
  | PInt (z : Z)
  | PStr (s : string)
  | PDict (d : gmap string pyval)
  | POrderedDict (items : list (string * pyval)).

(** [x is not None] *)
Definition is_not_None (v : pyval) : bool :=
  match v with PNone => false | _ => true end.

(** The conditions of the module's [assert] statements. *)
Inductive assertion :=
  | name_is_not_None          (* surveys.py:61 *)
  | variable_is_not_None      (* surveys.py:97 and 130 *)
  | table_is_not_None         (* surveys.py:109 *)
  | table_in_store (table : string).  (* surveys.py:111 *)

Inductive exn :=
  | AssertionError (a : assertion)
  | KeyError (key : pyval)
  | TypeError
  | AttributeError
  | IOError
  | ValueError
  | UnicodeEncodeError
  | Exception (missing : gset string).   (* surveys.py:177 *)

Inductive pyresult (A : Type) :=
  | Returns (a : A)
  | Raises (e : exn).
Arguments Returns {A} a.
Arguments Raises {A} e.

#[global] Instance pyresult_ret : MRet pyresult := λ A a, Returns a.
#[global] Instance pyresult_bind : MBind pyresult := λ A B k r,
  match r with
  | Returns a => k a
  | Raises e => Raises e
  end.

(** The error kinds the specification names, and the exception each one
    stands for in this module. *)
Inductive error_kind :=
  | InvalidArgument | NotFound | ParseError | MissingVariables | Other.

Definition kind_of (e : exn) : error_kind :=
  match e with
  | AssertionError name_is_not_None => InvalidArgument
  | AssertionError variable_is_not_None => InvalidArgument
  | AssertionError table_is_not_None => InvalidArgument
  | AssertionError (table_in_store _) => NotFound
  | KeyError _ => NotFound
  | IOError => NotFound
  | ValueError => ParseError
  | Exception _ => MissingVariables
  | TypeError | AttributeError | UnicodeEncodeError => Other
  end.

(** ** Strings: [str.lower], ordering, the regular expression [ident_re] *)

(** [str.lower] on a byte string: the letters [A]-[Z] go to [a]-[z], every
    other byte stays. *)
Definition lower_char (c : ascii) : ascii :=
  let n := N_of_ascii c in
  if ((65 <=? n) && (n <=? 90))%N then ascii_of_N (n + 32) else c.

Fixpoint lower (s : string) : string :=
  match s with
  | EmptyString => EmptyString
  | String c s' => String (lower_char c) (lower s')
  end.

Definition is_digit (c : ascii) : bool :=
  let n := N_of_ascii c in ((48 <=? n) && (n <=? 57))%N.

(** [$]: at the end of the string, or just before a newline that ends it. *)
Definition at_dollar (s : string) : bool :=
  match s with
  | EmptyString => true
  | String c EmptyString => Ascii.eqb c "010"%char
  | _ => false
  end.

(** A literal matched under [(?i)]; the rest of the subject on success. *)
Fixpoint match_literal_i (lit s : string) : option string :=
  match lit, s with
  | EmptyString, _ => Some s
  | String a lit', String c s' =>
      if Ascii.eqb (lower_char a) (lower_char c) then match_literal_i lit' s'
      else None
  | String _ _, EmptyString => None
  end.

(** [\d{lo,hi}$] *)
Fixpoint match_digits_dollar (lo hi : nat) (s : string) : bool :=
  ((lo =? 0)%nat && at_dollar s) ||
  match hi, s with
  | S hi', String c s' => is_digit c && match_digits_dollar (pred lo) hi' s'
  | _, _ => false
  end.

(** [ident_re.match(s) is not None] for
    [ident_re = re.compile(u"(?i)ident\d{2,4}$")] (surveys.py:43);
    [match] anchors the pattern at the start of [s]. *)
Definition ident_re_match (s : string) : bool :=
  match match_literal_i "ident" s with
  | Some rest => match_digits_dollar 2 4 rest
  | None => false
  end.

(** ** Dictionaries *)

Definition keys {A} (items : list (string * A)) : list string := items.*1.

(** [od[k] = v] on an [OrderedDict]: an existing key keeps its place. *)
Fixpoint od_setitem (k : string) (v : pyval) (items : list (string * pyval))
  : list (string * pyval) :=
  match items with
  | [] => [(k, v)]
  | (k', v') :: rest =>
      if decide (k' = k) then (k, v) :: rest
      else (k', v') :: od_setitem k v rest
  end.

Fixpoint od_lookup (k : string) (items : list (string * pyval)) : option pyval :=
  match items with
  | [] => None
  | (k', v') :: rest => if decide (k' = k) then Some v' else od_lookup k rest
  end.

(** [collections.OrderedDict(pairs)] *)
Definition OrderedDict (pairs : list (string * pyval)) : list (string * pyval) :=
  foldl (λ od kv, od_setitem kv.1 kv.2 od) [] pairs.

(** The content of a mapping object, whatever its class: what Python's [==]
    compares between a [dict] and an [OrderedDict]. *)
Definition as_mapping (v : pyval) : option (gmap string pyval) :=
  match v with
  | PDict d => Some d
  | POrderedDict items => Some (list_to_map items)
  | _ => None
  end.

(** [m.get(k)] *)
Definition py_get (m : pyval) (k : string) : pyresult pyval :=
  match m with
  | PDict d => Returns (default PNone (d !! k))
  | POrderedDict items => Returns (default PNone (od_lookup k items))
  | _ => Raises AttributeError
  end.

(** [m[k]] for a string [k] *)
Definition py_getitem (m : pyval) (k : string) : pyresult pyval :=
  match m with
  | PDict d =>
      match d !! k with Some v => Returns v | None => Raises (KeyError (PStr k)) end
  | POrderedDict items =>
      match od_lookup k items with
      | Some v => Returns v
      | None => Raises (KeyError (PStr k))
      end
  | _ => Raises TypeError
  end.

(** [m[k] = v] for a string [k] *)
Definition py_setitem (m : pyval) (k : string) (v : pyval) : pyresult pyval :=
  match m with
  | PDict d => Returns (PDict (<[k := v]> d))
  | POrderedDict items => Returns (POrderedDict (od_setitem k v items))
  | _ => Raises TypeError
  end.

(** Is [sub] a substring of [s]?  ([sub in s] on two [str]) *)
Fixpoint substring_of (sub s : string) : bool :=
  String.prefix sub s ||
  match s with
  | EmptyString => false
  | String _ s' => substring_of sub s'
  end.

(** [k in m] for a string [k] *)
Definition py_contains (m : pyval) (k : string) : pyresult bool :=
  match m with
  | PDict d => Returns (bool_decide (is_Some (d !! k)))
  | POrderedDict items => Returns (bool_decide (is_Some (od_lookup k items)))
  | PStr s => Returns (substring_of k s)
  | _ => Raises TypeError
  end.

(** [m.iteritems()]; a [dict] yields its items in an order of its own. *)
Definition py_iteritems (m : pyval) : pyresult (list (string * pyval)) :=
  match m with
  | PDict d => Returns (map_to_list d)
  | POrderedDict items => Returns items
  | _ => Raises AttributeError
  end.

(** Iterating [for x in m] where the elements are used as table names. *)
Fixpoint chars (s : string) : list string :=
  match s with
  | EmptyString => []
  | String c s' => String c EmptyString :: chars s'
  end.

Definition py_iter (m : pyval) : pyresult (list string) :=
  match m with
  | PDict d => Returns (keys (map_to_list d))
  | POrderedDict items => Returns (keys items)
  | PStr s => Returns (chars s)
  | _ => Raises TypeError
  end.

(** [sorted(pairs)] on [(key, value)] tuples: tuples are compared on their
    first components, and on the second ones only between equal keys. The
    items of a mapping have distinct keys, so the key decides. *)
Definition item_le (p q : string * pyval) : Prop := String.leb p.1 q.1 = true.

#[global] Instance item_le_dec : RelDecision item_le.
Proof. intros p q. unfold item_le. apply _. Defined.

Definition sorted (pairs : list (string * pyval)) : list (string * pyval) :=
  merge_sort item_le pairs.

(** ** The class [Survey] *)

(** The attributes an instance can hold.  [tables_index] is not among them:
    no method ever assigns [self.tables_index], so reading it on an
    instance always falls through to the class attribute (see [heap]). *)
Record Survey := {
  hdf5_file_path : pyval;
  label : pyval;
  name : pyval;
  tables : pyval;
  informations : gmap string pyval
}.

(** The class-level defaults of surveys.py:53-56, read through an instance
    that has not assigned the attribute. *)
Module Survey_class.
Definition hdf5_file_path : pyval := PNone.
Definition label : pyval := PNone.
Definition name : pyval := PNone.
Definition tables : pyval := PNone.
End Survey_class.

(** [self.tables], where a parameter called [tables] hides the attribute *)
Definition tables_of (self : Survey) : pyval := self.(tables).

(** [self.tables = value] *)
Definition set_tables (self : Survey) (value : pyval) : Survey :=
  {| name := self.(name); label := self.(label);
     hdf5_file_path := self.(hdf5_file_path);
     tables := value;
     informations := self.(informations) |}.

(** [Survey.__init__] (surveys.py:60-71).  [kwargs] is the dictionary of the
    keyword arguments other than [name], [label] and [hdf5_file_path]. *)
Definition __init__ (name label hdf5_file_path : pyval)
    (kwargs : gmap string pyval) : pyresult Survey :=
  if is_not_None name then
    Returns {|
      name := name;
      tables := PDict ∅;
      label := if is_not_None label then label else Survey_class.label;
      hdf5_file_path :=
        if is_not_None hdf5_file_path then hdf5_file_path
        else Survey_class.hdf5_file_path;
      informations := kwargs |}
  else Raises (AssertionError name_is_not_None).

(** The names [__init__] binds itself; a [**] mapping that holds one of them
    next to the explicit keyword makes the call a [TypeError]. *)
Definition init_parameters : list string :=
  ["self"; "name"; "label"; "hdf5_file_path"].

(** [**m] in the call of surveys.py:82-87. *)
Definition unpack_kwargs (m : pyval) : pyresult (gmap string pyval) :=
  match as_mapping m with
  | Some d =>
      if bool_decide (Forall (λ p, d !! p = None) init_parameters)
      then Returns d else Raises TypeError
  | None => Raises TypeError
  end.

(** [Survey.create_from_json] (surveys.py:80-89) *)
Definition create_from_json (survey_json : pyval) : pyresult Survey :=
  name ← py_get survey_json "name";
  label ← py_get survey_json "label";
  hdf5_file_path ← py_get survey_json "hdf5_file_path";
  informations ← py_get survey_json "informations";
  kwargs ← unpack_kwargs informations;
  self ← __init__ name label hdf5_file_path kwargs;
  tables ← py_get survey_json "tables";
  Returns (set_tables self tables).

(** [Survey.to_json] (surveys.py:199-207) *)
Definition to_json (self : Survey) : pyresult pyval :=
  let self_json := OrderedDict [] in
  let self_json := od_setitem "hdf5_file_path" self.(hdf5_file_path) self_json in
  let self_json := od_setitem "label" self.(label) self_json in
  let self_json := od_setitem "name" self.(name) self_json in
  tables_items ← py_iteritems self.(tables);
  let self_json :=
    od_setitem "tables" (POrderedDict (OrderedDict (sorted tables_items)))
      self_json in
  let self_json :=
    od_setitem "informations"
      (POrderedDict (OrderedDict (sorted (map_to_list self.(informations)))))
      self_json in
  Returns (POrderedDict self_json).

(** One turn of the loop of surveys.py:188-189:
    [self.tables[name][key] = val]. The attribute mapping is updated in
    place, so the registry afterwards holds the updated mapping.  (Another
    object that holds the same attribute mapping would see the update too;
    the properties below are about one survey and do not depend on it.) *)
Definition insert_table_item (name : string) (tables : pyval)
    (item : string * pyval) : pyresult pyval :=
  attributes ← py_getitem tables name;
  attributes ← py_setitem attributes item.1 item.2;
  py_setitem tables name attributes.

Fixpoint insert_table_loop (name : string) (tables : pyval)
    (items : list (string * pyval)) : pyresult pyval :=
  match items with
  | [] => Returns tables
  | item :: items =>
      tables ← insert_table_item name tables item;
      insert_table_loop name tables items
  end.

(** [Survey.insert_table] (surveys.py:182-189), for a table name that is a
    string; the result is [self] after the call. *)
Definition insert_table (self : Survey) (name : string)
    (kwargs : gmap string pyval) : pyresult Survey :=
  present ← py_contains self.(tables) name;
  tables ← (if present : bool then Returns self.(tables)
            else py_setitem self.(tables) name (PDict ∅));
  tables ← insert_table_loop name tables (map_to_list kwargs);
  Returns (set_tables self tables).

(** ** State shared by all instances, and the store *)

(** Records sent to the module logger [log]. *)
Inductive log_record :=
  | info_building_columns_index (table : string)        (* surveys.py:112 *)
  | error_table_not_found (table : string)              (* surveys.py:132 *)
  | info_replaced_by_ident (column_name : string)       (* surveys.py:169 *)
  | info_getting_survey_information (name : pyval).     (* surveys.py:195 *)

(** [tables_index] is the dictionary created once by the class statement
    (surveys.py:57): [self.tables_index] denotes that one object for every
    instance [self]. *)
Record heap := {
  tables_index : gmap string (list string);
  log : list log_record
}.

Definition M (A : Type) : Type := heap → pyresult A * heap.

#[global] Instance M_ret : MRet M := λ A a h, (Returns a, h).
#[global] Instance M_bind : MBind M := λ A B k m h,
  match m h with
  | (Returns a, h') => k a h'
  | (Raises e, h') => (Raises e, h')
  end.

Definition lift {A} (r : pyresult A) : M A := λ h, (r, h).
Definition raise {A} (e : exn) : M A := λ h, (Raises e, h).

Definition emit (r : log_record) : M () :=
  λ h, (Returns (), {| tables_index := h.(tables_index); log := h.(log) ++ [r] |}).

(** [self.tables_index], for any [self] *)
Definition get_tables_index (self : Survey) : M (gmap string (list string)) :=
  λ h, (Returns h.(tables_index), h).

(** [tables_index[table] = columns] on the object [self.tables_index] *)
Definition tables_index_setitem (self : Survey) (table : string)
    (columns : list string) : M () :=
  λ h, (Returns (),
        {| tables_index := <[table := columns]> h.(tables_index);
           log := h.(log) |}).

(** A pandas [DataFrame]: its columns from left to right, each one a label
    and the cells under it.  Labels may repeat. *)
Abbreviation DataFrame := (list (string * list pyval)).

(** [df.rename(columns = mapper)]: every label goes through [mapper], and
    stays as it is when [mapper] has no entry for it. *)
Definition df_rename (mapper : gmap string string) (df : DataFrame) : DataFrame :=
  map (λ col, (default col.1 (mapper !! col.1), col.2)) df.

(** [df[variables]] for a list of labels all present in [df]: for each
    label in turn, the columns carrying it. *)
Definition df_getitem (variables : list string) (df : DataFrame) : DataFrame :=
  flat_map (λ v, filter (λ col, col.1 = v) df) variables.

(** [store[key]]: pandas answers [KeyError] for every key that names no
    object of the file. *)
Definition store_getitem (store : gmap string DataFrame) (key : pyval)
  : pyresult DataFrame :=
  match key with
  | PStr k =>
      match store !! k with
      | Some df => Returns df
      | None => Raises (KeyError key)
      end
  | _ => Raises (KeyError key)
  end.

(** Is every byte of [s] below 128? *)
Fixpoint is_ascii (s : string) : bool :=
  match s with
  | EmptyString => true
  | String c s' => (N_of_ascii c <? 128)%N && is_ascii s'
  end.

(** ["... {}".format(v)] on a byte-string template, for a value [v] that
    [json.load] returned: a [unicode] string is encoded with the ASCII
    codec, which raises on a character beyond ASCII; any other value is
    formatted through its [str], which does not raise. *)
Definition format_json_value (v : pyval) : pyresult () :=
  match v with
  | PStr s => if is_ascii s then Returns () else Raises UnicodeEncodeError
  | _ => Returns ()
  end.

Section store.
(** [HDFStore(path)]: the content of the file at [path], as pandas opens
    it. The store is read, never written, by this module. *)
Variable HDFStore : pyval → pyresult (gmap string DataFrame).

(** [json.load] on the file at a path: [IOError] when it cannot be opened,
    [ValueError] when its content is not JSON. *)
Variable json_load : string → pyresult pyval.

(** [Survey.get_columns] (surveys.py:108-113) *)
Definition get_columns (self : Survey) (table : option string)
  : M (list string) :=
  match table with
  | None => raise (AssertionError table_is_not_None)
  | Some table =>
      store ← lift (HDFStore self.(hdf5_file_path));
      match (store : gmap string DataFrame) !! table with
      | None => raise (AssertionError (table_in_store table))
      | Some df =>
          _ ← emit (info_building_columns_index table);
          mret (keys df)
      end
  end.

(** The loop of surveys.py:101-105 *)
Fixpoint find_tables_loop (self : Survey) (variable : string)
    (tables : list string) (container_tables : list string)
  : M (list string) :=
  match tables with
  | [] => mret container_tables
  | table :: tables =>
      tables_index ← get_tables_index self;
      _ ← match (tables_index : gmap string (list string)) !! table with
          | None =>
              columns ← get_columns self (Some table);
              tables_index_setitem self table columns
          | Some _ => mret ()
          end;
      tables_index ← get_tables_index self;
      match (tables_index : gmap string (list string)) !! table with
      | None => raise (KeyError (PStr table))
      | Some columns =>
          find_tables_loop self variable tables
            (if bool_decide (variable ∈ columns)
             then container_tables ++ [table] else container_tables)
      end
  end.

(** [Survey.find_tables] (surveys.py:95-106) *)
Definition find_tables (self : Survey) (variable : option string)
    (tables : option (list string)) : M (list string) :=
  let container_tables := [] in
  match variable with
  | None => raise (AssertionError variable_is_not_None)
  | Some variable =>
      tables ← match tables with
               | None => lift (py_iter (tables_of self))
               | Some tables => mret tables
               end;
      find_tables_loop self variable tables container_tables
  end.

(** surveys.py:156-159: [store[table]], and on [KeyError] the table that
    the registry entry names under ["Rdata_table"]. *)
Definition get_values_frame (self : Survey)
    (store : gmap string DataFrame) (table : string) : pyresult DataFrame :=
  match store_getitem store (PStr table) with
  | Raises (KeyError _) =>
      entry ← py_getitem self.(tables) table;
      Rdata_table ← py_getitem entry "Rdata_table";
      store_getitem store Rdata_table
  | result => result
  end.

(** surveys.py:162-163 *)
Definition get_values_lowercase (df : DataFrame) : DataFrame :=
  let columns : gmap string string :=
    list_to_map (map (λ column_name, (column_name, lower column_name)) (keys df)) in
  df_rename columns df.

(** The loop of surveys.py:166-170 over the labels of [df] *)
Fixpoint get_values_rename_ident (column_names : list string) (df : DataFrame)
  : M DataFrame :=
  match column_names with
  | [] => mret df
  | column_name :: column_names =>
      if ident_re_match column_name then
        let df := df_rename {[ column_name := "ident" ]} df in
        _ ← emit (info_replaced_by_ident column_name);
        mret df
      else get_values_rename_ident column_names df
  end.

(** surveys.py:172-180 *)
Definition get_values_select (variables : option (list string))
    (df : DataFrame) : pyresult DataFrame :=
  match variables with
  | None => Returns df
  | Some variables =>
      let diff : gset string :=
        list_to_set variables ∖ list_to_set (keys df) in
      if decide (diff = ∅) then
        let variables :=
          elements ((list_to_set variables : gset string) ∩ list_to_set (keys df)) in
        Returns (df_getitem variables df)
      else Raises (Exception diff)
  end.

(** surveys.py:161-170, on the table read from the store *)
Definition get_values_normalize (lowercase rename_ident : bool) (df : DataFrame)
  : M DataFrame :=
  let df := if lowercase then get_values_lowercase df else df in
  if rename_ident then get_values_rename_ident (keys df) df else mret df.

(** [Survey.get_values] (surveys.py:136-180) *)
Definition get_values (self : Survey) (variables : option (list string))
    (table : string) (lowercase rename_ident : bool) : M DataFrame :=
  store ← lift (HDFStore self.(hdf5_file_path));
  df ← lift (get_values_frame self store table);
  df ← get_values_normalize lowercase rename_ident df;
  lift (get_values_select variables df).

(** [Survey.get_value] (surveys.py:115-134) *)
Definition get_value (self : Survey) (variable : option string)
    (table : string) : M DataFrame :=
  match variable with
  | None => raise (AssertionError variable_is_not_None)
  | Some variable =>
      known ← lift (py_contains self.(tables) table);
      _ ← (if known : bool then mret ()
           else emit (error_table_not_found table));
      get_values self (Some [variable]) table true true
  end.

(** [Survey.load] (surveys.py:191-197).  Every string [json.load] returns
    is a [unicode] object ([PStr] holds its UTF-8 bytes), and line 195
    formats the name into a byte-string template before anything is logged
    or built: that encodes a [unicode] name with the ASCII codec. *)
Definition load (file_path : string) : M Survey :=
  self_json ← lift (json_load file_path);
  name ← lift (py_get self_json "name");
  _ ← lift (format_json_value name);
  _ ← emit (info_getting_survey_information name);
  lift (create_from_json self_json).
End store.

(** ** Mapping objects *)

(** An [OrderedDict] holds each key once; a [dict] does by construction. *)
Definition is_mapping (v : pyval) : Prop :=
  match v with
  | PDict _ => True
  | POrderedDict items => NoDup (keys items)
  | _ => False
  end.

(** The attribute mapping the registry of [self] holds for table [name]. *)
Definition attributes_of (self : Survey) (name : string)
  : option (gmap string pyval) :=
  registry ← as_mapping self.(tables);
  entry ← (registry : gmap string pyval) !! name;
  as_mapping entry.

(** The data model of a catalog: it has a name, its registry is a mapping
    from table names to attribute mappings, and its informations are the
    keyword arguments [__init__] received beyond its own parameters. *)
Record catalog (self : Survey) : Prop := {
  catalog_name : self.(name) ≠ PNone;
  catalog_tables : is_mapping self.(tables);
  catalog_entries :
    ∀ registry table entry,
      as_mapping self.(tables) = Some registry →
      registry !! table = Some entry → is_mapping entry;
  catalog_informations :
    Forall (λ p, self.(informations) !! p = None) init_parameters
}.

Definition str_le (a b : string) : Prop := String.leb a b = true.

(** ** The column list of a table *)

(** The column list [find_tables] works with for [table]: the one held in
    [tables_index] when there is one, else the labels of the table in the
    store. *)
Definition column_list (h : heap) (store : gmap string DataFrame)
    (table : string) : option (list string) :=
  match h.(tables_index) !! table with
  | Some columns => Some columns
  | None => keys <$> store !! table
  end.

(** The heap after the column index of [table] has been built. *)
Definition built (table : string) (columns : list string) (h : heap) : heap :=
  {| tables_index := <[table := columns]> h.(tables_index);
     log := h.(log) ++ [info_building_columns_index table] |}.

(** The records of [log] that announce the building of a column index. *)
Definition is_building_columns_index (r : log_record) : bool :=
  match r with info_building_columns_index _ => true | _ => false end.

(** ** The renaming of the identifier column, in the specification's words *)

(** Modelled on the words of the specification, to be compared with the
    code: "on the first match, rename that column to the canonical name
    [ident] and stop scanning (only one renamed, even if multiple candidates
    exist)". *)
Fixpoint rename_first_match (column_names : list string) : list string :=
  match column_names with
  | [] => []
  | column_name :: column_names =>
      if ident_re_match column_name then "ident" :: column_names
      else column_name :: rename_first_match column_names
  end.

(** What the code does to the labels: every column that carries the label
    of the first match is renamed. *)
Definition rename_label_of_first_match (column_names : list string) : list string :=
  match find ident_re_match column_names with
  | Some first =>
      map (λ c, if decide (c = first) then "ident" else c) column_names
  | None => column_names
  end.

(** ** Heaps that extend a heap *)

(** [h'] holds what [h] held, and beyond that only column lists read from
    the store of [self] for names among [tables], each announced on the
    log. *)
Definition extends (HDFStore : pyval → pyresult (gmap string DataFrame))
    (self : Survey) (tables : list string) (h h' : heap) : Prop :=
  (∀ t columns, h.(tables_index) !! t = Some columns →
                h'.(tables_index) !! t = Some columns) ∧
  (∀ t columns, h'.(tables_index) !! t = Some columns →
     h.(tables_index) !! t = Some columns ∨
     (t ∈ tables ∧
      ∃ store df, HDFStore self.(hdf5_file_path) = Returns store ∧
                  store !! t = Some df ∧ columns = keys df)) ∧
  ∃ new, h'.(log) = h.(log) ++ new ∧
         Forall (λ r, is_building_columns_index r = true) new.

(** ** A sequence of calls *)

(** [self.insert_table(name, **kwargs)] for each [(name, kwargs)] of a list
    in turn, as a caller that registers several tables does; it stops at
    the first call that raises. *)
Fixpoint insert_tables (self : Survey)
    (registrations : list (string * gmap string pyval)) : pyresult Survey :=
  match registrations with
  | [] => Returns self
  | registration :: registrations =>
      self ← insert_table self registration.1 registration.2;
      insert_tables self registrations
  end.

(** ** Example objects *)

(** A survey with one registered table, stored under another key. *)
Definition erfs : Survey := {|
  name := PStr "erfs_2008";
  label := PStr "ERFS 2008";
  hdf5_file_path := PStr "erfs.h5";
  tables := PDict {[ "menage" := PDict {[ "Rdata_table" := PStr "menage08" ]} ]};
  informations := {[ "year" := PInt 2008 ]}
|}.

(** A metadata document that has a name and nothing else. *)
Definition name_only_document : gmap string pyval := {[ "name" := PStr "erfs_2008" ]}.

(** A metadata document without a ["tables"] entry. *)
Definition no_tables_document : gmap string pyval :=
  {[ "name" := PStr "erfs_2008"; "informations" := PDict ∅ ]}.

(** A second survey, backed by another file that also has a [menage]
    table, with other columns. *)
Definition budget : Survey := {|
  name := PStr "budget_2011";
  label := PNone;
  hdf5_file_path := PStr "budget.h5";
  tables := PDict {[ "menage" := PDict ∅ ]};
  informations := ∅
|}.

Definition erfs_h5 : gmap string DataFrame :=
  {[ "menage08" := [("IDENT08", [PInt 1; PInt 2]); ("Salaire", [PInt 450; PInt 610])];
     "panel" := [("IDENT08", [PInt 1]); ("ident08", [PInt 1]); ("Salaire", [PInt 450])];
     "foyer" := [("ident", [PInt 1]); ("rfr", [PInt 21000])];
     "T" := [("a", [PInt 1]); ("c", [PInt 3])] ]}.

Definition budget_h5 : gmap string DataFrame :=
  {[ "menage" := [("ident", [PInt 7]); ("depense", [PInt 1300])];
     "foyer" := [("ident", [PInt 7]); ("revenu", [PInt 0])] ]}.

(** The files of the examples; any other path opens a new, empty store. *)
Definition example_HDFStore (path : pyval) : pyresult (gmap string DataFrame) :=
  match path with
  | PStr p =>
      if decide (p = "erfs.h5") then Returns erfs_h5
      else if decide (p = "budget.h5") then Returns budget_h5
      else Returns ∅
  | _ => Raises TypeError
  end.

Definition empty_heap : heap := {| tables_index := ∅; log := [] |}.

(** * Properties *)

(** ** The order on strings *)

Lemma string_compare_not_Gt_trans (a b c : string) :
  (a ?= b)%string ≠ Gt → (b ?= c)%string ≠ Gt → (a ?= c)%string ≠ Gt.
Proof.
  revert b c. induction a as [|x a IH]; intros [|y b] [|z c]; simpl; try congruence.
  unfold Ascii.compare.
  destruct (N.compare_spec (N_of_ascii x) (N_of_ascii y)) as [Hxy|Hxy|Hxy];
    destruct (N.compare_spec (N_of_ascii y) (N_of_ascii z)) as [Hyz|Hyz|Hyz];
    destruct (N.compare_spec (N_of_ascii x) (N_of_ascii z)) as [Hxz|Hxz|Hxz];
    try congruence; try lia.
  apply IH.
Qed.

#[global] Instance str_le_trans : Transitive str_le.
Proof.
  intros a b c. unfold str_le, String.leb. intros Hab Hbc.
  pose proof (string_compare_not_Gt_trans a b c) as H.
  destruct (a ?= b)%string, (b ?= c)%string, (a ?= c)%string;
    try done; exfalso; apply H; congruence.
Qed.

#[global] Instance str_le_total : Total str_le.
Proof. intros a b. apply String.leb_total. Qed.

#[global] Instance str_le_antisym : AntiSymm eq str_le.
Proof. intros a b. apply String.leb_antisym. Qed.

#[global] Instance item_le_trans : Transitive item_le.
Proof. intros p q r. unfold item_le. apply str_le_trans. Qed.

#[global] Instance item_le_total : Total item_le.
Proof. intros p q. unfold item_le. apply str_le_total. Qed.

(** ** [sorted] *)

Lemma sorted_Permutation items : sorted items ≡ₚ items.
Proof. apply merge_sort_Permutation. Qed.

Lemma sorted_StronglySorted items : StronglySorted item_le (sorted items).
Proof. apply (StronglySorted_merge_sort _). Qed.

Lemma keys_StronglySorted (items : list (string * pyval)) :
  StronglySorted item_le items → StronglySorted str_le (keys items).
Proof.
  induction 1 as [|p items _ IH Hall]; simpl; constructor; [done|].
  apply Forall_fmap. eapply Forall_impl; [exact Hall|]. done.
Qed.

Lemma keys_sorted_NoDup (items : list (string * pyval)) : NoDup (keys items) → NoDup (keys (sorted items)).
Proof.
  intros H. unfold keys. by rewrite (sorted_Permutation items).
Qed.

Lemma NoDup_keys_functional (items : list (string * pyval)) k v1 v2 :
  NoDup (keys items) → (k, v1) ∈ items → (k, v2) ∈ items → v1 = v2.
Proof.
  intros Hnd H1 H2.
  apply (elem_of_list_to_map_1 (M := gmap string)) in H1, H2; [|done..].
  congruence.
Qed.

(** Sorting forgets the order the items came in. *)
Lemma sorted_order_irrelevant (items1 items2 : list (string * pyval)) :
  NoDup (keys items1) → items1 ≡ₚ items2 → sorted items1 = sorted items2.
Proof.
  intros Hnd Hperm.
  apply (StronglySorted_unique_strong item_le);
    [|apply sorted_StronglySorted..|].
  - intros [k1 v1] [k2 v2] H1 H2 Hle1 Hle2.
    assert (k1 = k2) as -> by (by apply String.leb_antisym).
    f_equal. apply (NoDup_keys_functional items1 k2); [done|..].
    + by rewrite <- (sorted_Permutation items1).
    + by rewrite Hperm, <- (sorted_Permutation items2).
  - by rewrite !sorted_Permutation.
Qed.

(** ** [OrderedDict] *)

Lemma od_lookup_list_to_map (k : string) (items : list (string * pyval)) :
  od_lookup k items = (list_to_map items : gmap string pyval) !! k.
Proof.
  induction items as [|[k' v'] items IH]; simpl; [done|].
  case_decide; subst.
  - by rewrite lookup_insert_eq.
  - by rewrite lookup_insert_ne.
Qed.

Lemma od_setitem_list_to_map (k : string) (v : pyval) (items : list (string * pyval)) :
  (list_to_map (od_setitem k v items) : gmap string pyval)
  = <[k := v]> (list_to_map items).
Proof.
  induction items as [|[k' v'] items IH]; simpl; [done|].
  case_decide; subst; simpl.
  - by rewrite insert_insert_eq.
  - rewrite IH. by apply insert_insert_ne.
Qed.

Lemma od_setitem_keys_fresh (k : string) (v : pyval) (items : list (string * pyval)) :
  k ∉ keys items → od_setitem k v items = items ++ [(k, v)].
Proof.
  induction items as [|[k' v'] items IH]; simpl; [done|].
  intros Hk. apply not_elem_of_cons in Hk as [Hne Hk].
  case_decide; [congruence|]. by rewrite IH.
Qed.

Lemma od_setitem_keys (k : string) (v : pyval) (items : list (string * pyval)) :
  keys (od_setitem k v items)
  = if decide (k ∈ keys items) then keys items else keys items ++ [k].
Proof.
  unfold keys. induction items as [|[k' v'] items IH].
  - rewrite decide_False by apply not_elem_of_nil. done.
  - cbn [od_setitem]. rewrite (fmap_cons fst (k', v') items). cbn [fst].
    destruct (decide (k' = k)) as [->|Hne].
    + by rewrite decide_True by left.
    + rewrite fmap_cons, IH. cbn [fst]. destruct (decide (k ∈ items.*1)).
      * by rewrite decide_True by (by right).
      * rewrite decide_False; [done|]. rewrite elem_of_cons. by intros [->|?].
Qed.

Lemma od_setitem_NoDup (k : string) (v : pyval) (items : list (string * pyval)) :
  NoDup (keys items) → NoDup (keys (od_setitem k v items)).
Proof.
  intros Hnd. rewrite od_setitem_keys. case_decide; [done|].
  apply NoDup_app. split_and!; [done| |apply NoDup_singleton].
  intros x Hx ->%list_elem_of_singleton. done.
Qed.

Lemma OrderedDict_app (acc pairs : list (string * pyval)) :
  NoDup (keys (acc ++ pairs)) →
  foldl (λ od kv, od_setitem kv.1 kv.2 od) acc pairs = acc ++ pairs.
Proof.
  revert acc. induction pairs as [|[k v] pairs IH]; intros acc Hnd; simpl.
  - by rewrite app_nil_r.
  - rewrite od_setitem_keys_fresh.
    + rewrite IH; rewrite <- (assoc_L (++)); done.
    + unfold keys in Hnd. rewrite fmap_app in Hnd.
      apply NoDup_app in Hnd as (_ & Hnd & _).
      intros Hin. apply (Hnd k Hin). simpl. left.
Qed.

Lemma OrderedDict_NoDup (pairs : list (string * pyval)) : NoDup (keys pairs) → OrderedDict pairs = pairs.
Proof. intros. by apply (OrderedDict_app []). Qed.

(** ** Mapping objects behave as their content *)

Lemma is_mapping_as_mapping v : is_mapping v → is_Some (as_mapping v).
Proof. destruct v; simpl; by eauto. Qed.

Lemma list_to_map_sorted (items : list (string * pyval)) :
  NoDup (keys items) →
  (list_to_map (sorted items) : gmap string pyval) = list_to_map items.
Proof.
  intros Hnd. apply list_to_map_proper; [by apply keys_sorted_NoDup|].
  apply sorted_Permutation.
Qed.

Lemma sorted_map_to_list (m : gmap string pyval) :
  (list_to_map (sorted (map_to_list m)) : gmap string pyval) = m.
Proof.
  rewrite list_to_map_sorted by apply NoDup_fst_map_to_list.
  apply list_to_map_to_list.
Qed.

Lemma py_iteritems_mapping v m :
  is_mapping v → as_mapping v = Some m →
  ∃ items, py_iteritems v = Returns items ∧ NoDup (keys items) ∧
           items ≡ₚ map_to_list m.
Proof.
  destruct v; simpl; try done; intros Hm [= <-].
  - eexists; split_and!; [done|apply NoDup_fst_map_to_list|done].
  - eexists; split_and!; [done..|]. symmetry. by apply map_to_list_to_map.
Qed.

Lemma py_getitem_mapping v m k :
  as_mapping v = Some m →
  py_getitem v k = match m !! k with
                   | Some x => Returns x
                   | None => Raises (KeyError (PStr k))
                   end.
Proof.
  destruct v; simpl; try done; intros [= <-]; [done|].
  by rewrite od_lookup_list_to_map.
Qed.

Lemma py_contains_mapping v m k :
  as_mapping v = Some m →
  py_contains v k = Returns (bool_decide (is_Some (m !! k))).
Proof.
  destruct v; simpl; try done; intros [= <-]; [done|].
  by rewrite od_lookup_list_to_map.
Qed.

Lemma py_get_mapping v m k :
  as_mapping v = Some m → py_get v k = Returns (default PNone (m !! k)).
Proof.
  destruct v; simpl; try done; intros [= <-]; [done|].
  by rewrite od_lookup_list_to_map.
Qed.

Lemma py_setitem_mapping v m k x :
  is_mapping v → as_mapping v = Some m →
  ∃ v', py_setitem v k x = Returns v' ∧ is_mapping v' ∧
        as_mapping v' = Some (<[k := x]> m).
Proof.
  destruct v; simpl; try done; intros Hm [= <-].
  - by eexists.
  - eexists; split_and!; [done|by apply od_setitem_NoDup|].
    simpl. by rewrite od_setitem_list_to_map.
Qed.

(** ** [to_json] *)

(** The document of a survey whose registry is a mapping. *)
Lemma to_json_mapping self registry :
  is_mapping self.(tables) → as_mapping self.(tables) = Some registry →
  to_json self = Returns (POrderedDict [
    ("hdf5_file_path", self.(hdf5_file_path));
    ("label", self.(label));
    ("name", self.(name));
    ("tables", POrderedDict (sorted (map_to_list registry)));
    ("informations", POrderedDict (sorted (map_to_list self.(informations))))]).
Proof.
  intros Hm Has.
  destruct (py_iteritems_mapping _ _ Hm Has) as (items & Hit & Hnd & Hperm).
  unfold to_json. rewrite Hit. simpl.
  rewrite (sorted_order_irrelevant items (map_to_list registry)) by done.
  rewrite !OrderedDict_NoDup
    by (apply keys_sorted_NoDup, NoDup_fst_map_to_list).
  done.
Qed.

(** Reading the five entries of a document. *)
Lemma od_lookup_document (path label name tables informations : pyval) :
  let doc := [("hdf5_file_path", path); ("label", label); ("name", name);
              ("tables", tables); ("informations", informations)] in
  od_lookup "hdf5_file_path" doc = Some path ∧
  od_lookup "label" doc = Some label ∧
  od_lookup "name" doc = Some name ∧
  od_lookup "tables" doc = Some tables ∧
  od_lookup "informations" doc = Some informations.
Proof. by split_and!. Qed.

Lemma unpack_kwargs_sorted (kwargs : gmap string pyval) :
  Forall (λ p, kwargs !! p = None) init_parameters →
  unpack_kwargs (POrderedDict (sorted (map_to_list kwargs))) = Returns kwargs.
Proof.
  intros Hk. unfold unpack_kwargs. simpl as_mapping.
  rewrite sorted_map_to_list. by rewrite bool_decide_eq_true_2.
Qed.

Lemma init_Returns name label path kwargs :
  name ≠ PNone →
  __init__ name label path kwargs
  = Returns {| name := name; label := label; hdf5_file_path := path;
               tables := PDict ∅; informations := kwargs |}.
Proof.
  intros Hn. unfold __init__.
  destruct name; try done; by destruct label, path.
Qed.

(** ** C3: the round trip through the document *)

(** C3.  For every catalog (a survey that has a name, a registry that is a
    mapping, and informations that came in as keyword arguments), [to_json]
    returns a document and [create_from_json] rebuilds from it a catalog
    with the same name, label and store path, a registry with the same
    content and the same informations. *)
Theorem create_from_json_to_json (self : Survey) :
  catalog self →
  ∃ doc self',
    to_json self = Returns doc ∧
    create_from_json doc = Returns self' ∧
    self'.(name) = self.(name) ∧
    self'.(label) = self.(label) ∧
    self'.(hdf5_file_path) = self.(hdf5_file_path) ∧
    as_mapping self'.(tables) = as_mapping self.(tables) ∧
    self'.(informations) = self.(informations) ∧
    catalog self'.
Proof.
  intros [Hname Htables Hentries Hinfo].
  destruct (is_mapping_as_mapping _ Htables) as [registry Hreg].
  eexists _, _. split; [by apply to_json_mapping|].
  destruct (od_lookup_document self.(hdf5_file_path) self.(label) self.(name)
              (POrderedDict (sorted (map_to_list registry)))
              (POrderedDict (sorted (map_to_list self.(informations)))))
    as (Hp & Hl & Hn & Ht & Hi).
  unfold create_from_json, py_get. rewrite Hp, Hl, Hn, Ht, Hi.
  cbn [mbind pyresult_bind from_option id].
  rewrite unpack_kwargs_sorted by done.
  cbn [mbind pyresult_bind].
  rewrite init_Returns by done.
  cbn [mbind pyresult_bind].
  split_and!; try done.
  - simpl. by rewrite sorted_map_to_list.
  - split; simpl; try done.
    + apply keys_sorted_NoDup, NoDup_fst_map_to_list.
    + intros registry' table entry. rewrite sorted_map_to_list.
      intros [= <-]. by apply Hentries.
Qed.

(** ** [insert_table] *)

Lemma foldl_insert_union (items : list (string * pyval)) (attrs : gmap string pyval) :
  NoDup (keys items) →
  foldl (λ a kv, <[kv.1 := kv.2]> a) attrs items = list_to_map items ∪ attrs.
Proof.
  revert attrs. induction items as [|[k v] items IH]; intros attrs Hnd; simpl.
  - by rewrite (left_id_L ∅ (∪)).
  - apply NoDup_cons in Hnd as [Hk Hnd]. rewrite IH by done.
    apply map_eq. intros i. rewrite !lookup_union.
    destruct (decide (k = i)) as [->|Hne].
    + rewrite !lookup_insert_eq.
      rewrite (not_elem_of_list_to_map_1 (M := gmap string) items i) by done.
      by destruct (attrs !! i).
    + by rewrite !lookup_insert_ne.
Qed.

Lemma insert_table_loop_mapping name items : ∀ tables registry entry attrs,
  is_mapping tables → as_mapping tables = Some registry →
  registry !! name = Some entry →
  is_mapping entry → as_mapping entry = Some attrs →
  ∃ tables' entry',
    insert_table_loop name tables items = Returns tables' ∧
    is_mapping tables' ∧
    as_mapping tables' = Some (<[name := entry']> registry) ∧
    is_mapping entry' ∧
    as_mapping entry' = Some (foldl (λ a kv, <[kv.1 := kv.2]> a) attrs items).
Proof.
  induction items as [|[k v] items IH];
    intros tables registry entry attrs Ht Hreg Hentry He Hattrs; simpl.
  - exists tables, entry. by rewrite insert_id.
  - unfold insert_table_item.
    rewrite (py_getitem_mapping _ _ _ Hreg), Hentry.
    cbn [mbind pyresult_bind fst snd].
    destruct (py_setitem_mapping entry attrs k v He Hattrs)
      as (entry1 & -> & He1 & Hattrs1).
    cbn [mbind pyresult_bind].
    destruct (py_setitem_mapping tables registry name entry1 Ht Hreg)
      as (tables1 & -> & Ht1 & Hreg1).
    cbn [mbind pyresult_bind].
    destruct (IH tables1 _ entry1 _ Ht1 Hreg1 (lookup_insert_eq _ _ _) He1 Hattrs1)
      as (tables' & entry' & -> & Ht' & Hreg' & He' & Hattrs').
    exists tables', entry'. rewrite insert_insert_eq in Hreg'. done.
Qed.

(** One call: the attributes given are merged over the ones the table had,
    an absent table starting from the empty mapping. *)
Lemma insert_table_mapping (self : Survey) (name : string)
    (kwargs registry : gmap string pyval) :
  is_mapping self.(tables) → as_mapping self.(tables) = Some registry →
  (∀ entry, registry !! name = Some entry → is_mapping entry) →
  ∃ tables' entry',
    insert_table self name kwargs = Returns (set_tables self tables') ∧
    is_mapping tables' ∧
    as_mapping tables' = Some (<[name := entry']> registry) ∧
    is_mapping entry' ∧
    as_mapping entry'
    = Some (kwargs ∪ default ∅ (attributes_of self name)).
Proof.
  intros Ht Hreg Hentry. unfold insert_table, attributes_of.
  rewrite (py_contains_mapping _ _ _ Hreg), Hreg.
  cbn [mbind pyresult_bind option_bind].
  destruct (registry !! name) as [entry|] eqn:Hlook.
  - rewrite bool_decide_eq_true_2 by done. cbn [mbind pyresult_bind option_bind].
    pose proof (Hentry _ eq_refl) as He.
    destruct (is_mapping_as_mapping _ He) as [attrs Hattrs].
    destruct (insert_table_loop_mapping name (map_to_list kwargs)
                _ _ _ _ Ht Hreg Hlook He Hattrs)
      as (tables' & entry' & -> & Ht' & Hreg' & He' & Hattrs').
    exists tables', entry'. split_and!; try done.
    rewrite Hattrs', Hattrs. simpl. f_equal.
    rewrite foldl_insert_union by apply NoDup_fst_map_to_list.
    by rewrite list_to_map_to_list.
  - rewrite bool_decide_eq_false_2 by (by intros [? ?]).
    cbn [mbind pyresult_bind option_bind].
    destruct (py_setitem_mapping _ _ name (PDict ∅) Ht Hreg)
      as (tables1 & -> & Ht1 & Hreg1).
    cbn [mbind pyresult_bind].
    destruct (insert_table_loop_mapping name (map_to_list kwargs)
                tables1 _ (PDict ∅) ∅ Ht1 Hreg1 (lookup_insert_eq _ _ _) I eq_refl)
      as (tables' & entry' & -> & Ht' & Hreg' & He' & Hattrs').
    exists tables', entry'. rewrite insert_insert_eq in Hreg'.
    split_and!; try done.
    rewrite Hattrs'. simpl. f_equal.
    rewrite foldl_insert_union by apply NoDup_fst_map_to_list.
    by rewrite list_to_map_to_list.
Qed.

Lemma attributes_of_set_tables self tables' registry name entry attrs :
  as_mapping tables' = Some registry → registry !! name = Some entry →
  as_mapping entry = Some attrs →
  attributes_of (set_tables self tables') name = Some attrs.
Proof.
  intros Hreg Hentry Hattrs. unfold attributes_of. simpl.
  rewrite Hreg. simpl. rewrite Hentry. done.
Qed.

Lemma insert_table_catalog self table kwargs :
  catalog self →
  ∃ self',
    insert_table self table kwargs = Returns self' ∧ catalog self' ∧
    attributes_of self' table
    = Some (kwargs ∪ default ∅ (attributes_of self table)) ∧
    (∀ other, other ≠ table →
       attributes_of self' other = attributes_of self other) ∧
    self'.(name) = self.(name) ∧
    self'.(label) = self.(label) ∧
    self'.(hdf5_file_path) = self.(hdf5_file_path) ∧
    self'.(informations) = self.(informations).
Proof.
  intros [Hname Htables Hentries Hinfo].
  destruct (is_mapping_as_mapping _ Htables) as [registry Hreg].
  destruct (insert_table_mapping self table kwargs registry Htables Hreg)
    as (tables' & entry' & Hcall & Ht' & Hreg' & He' & Hattrs').
  { intros entry. by apply Hentries. }
  exists (set_tables self tables'). split_and!; try done.
  - split; simpl; try done.
    intros registry' table' entry. rewrite Hreg'. intros [= <-].
    destruct (decide (table = table')) as [->|Hne].
    + rewrite lookup_insert_eq. by intros [= <-].
    + rewrite lookup_insert_ne by done. by apply Hentries.
  - eapply attributes_of_set_tables; [done|apply lookup_insert_eq|done].
  - intros other Hne. unfold attributes_of. simpl. rewrite Hreg', Hreg. simpl.
    by rewrite lookup_insert_ne.
Qed.

(** ** The invariant of the surveys the module builds *)

(** Python binds the keywords [name], [label] and [hdf5_file_path] to the
    parameters of [__init__], so [kwargs] never holds them; a survey that
    [__init__] returns is then a catalog. *)
Lemma init_catalog name label hdf5_file_path kwargs self :
  Forall (λ p, kwargs !! p = None) init_parameters →
  __init__ name label hdf5_file_path kwargs = Returns self →
  catalog self.
Proof.
  intros Hk. unfold __init__.
  destruct (is_not_None name) eqn:Hn; [|done]. intros [= <-].
  split; simpl; try done.
  - by destruct name.
  - intros registry table entry [= <-]. by rewrite lookup_empty.
Qed.

(** A survey read from a document has a name and well-formed informations;
    it is a catalog when the document holds a registry under ["tables"]. *)
Lemma create_from_json_invariant survey_json self :
  create_from_json survey_json = Returns self →
  self.(name) ≠ PNone ∧
  Forall (λ p, self.(informations) !! p = None) init_parameters ∧
  py_get survey_json "tables" = Returns self.(tables).
Proof.
  unfold create_from_json.
  destruct (py_get survey_json "name") as [n|]; [|done].
  destruct (py_get survey_json "label") as [l|]; [|done].
  destruct (py_get survey_json "hdf5_file_path") as [p|]; [|done].
  destruct (py_get survey_json "informations") as [i|]; [|done].
  cbn [mbind pyresult_bind]. unfold unpack_kwargs.
  destruct (as_mapping i) as [d|]; [|done].
  case_bool_decide as Hk; [|done]. cbn [mbind pyresult_bind].
  destruct (__init__ n l p d) as [self0|] eqn:Hinit; [|done].
  cbn [mbind pyresult_bind].
  destruct (py_get survey_json "tables") as [t|]; [|done].
  cbn [mbind pyresult_bind]. intros [= <-].
  destruct (init_catalog _ _ _ _ _ Hk Hinit) as [Hname _ _ Hinfo].
  done.
Qed.

(** ** C2: construction *)

(** C2, as the code has it.  [__init__] raises the assertion error exactly
    when [name] is [None]; with any other name, the empty string included,
    it returns a survey whose table registry is a new empty dictionary. *)
Theorem init_requires_name (name label hdf5_file_path : pyval)
    (kwargs : gmap string pyval) :
  (name = PNone ∧
   ∃ e, __init__ name label hdf5_file_path kwargs = Raises e ∧
        kind_of e = InvalidArgument) ∨
  (name ≠ PNone ∧
   ∃ self, __init__ name label hdf5_file_path kwargs = Returns self ∧
           self.(tables) = PDict ∅ ∧
           as_mapping self.(tables) = Some ∅ ∧
           self.(informations) = kwargs).
Proof.
  destruct (decide (is_not_None name = true)) as [Hn|Hn].
  - right. assert (name ≠ PNone) by (by intros ->).
    split; [done|]. rewrite init_Returns by done. by eexists.
  - left. assert (name = PNone) as -> by (by destruct name).
    split; [done|]. by eexists.
Qed.

(** C2 as stated fails: a survey named by the empty string is constructed. *)
Lemma init_empty_name_succeeds :
  (∃ self, __init__ (PStr "") PNone PNone ∅ = Returns self ∧
           self.(tables) = PDict ∅) ∧
  ¬ (∃ e, __init__ (PStr "") PNone PNone ∅ = Raises e).
Proof. split; [by eexists|]. by intros [e ?]. Qed.

(** ** C7: the document of [to_json] *)

(** C7.  For a survey whose registry is a mapping, [to_json] returns an
    ordered document with the keys [hdf5_file_path], [label], [name],
    [tables], [informations] in this order; under [tables] and
    [informations] are ordered mappings with the content of the registry
    and of the informations, their keys in increasing order; and two
    surveys with the same content give the same document, whatever order
    their mappings hold it in. *)
Theorem to_json_key_order (self : Survey) :
  is_mapping self.(tables) →
  ∃ tables_items informations_items,
    to_json self = Returns (POrderedDict [
      ("hdf5_file_path", self.(hdf5_file_path));
      ("label", self.(label));
      ("name", self.(name));
      ("tables", POrderedDict tables_items);
      ("informations", POrderedDict informations_items)]) ∧
    StronglySorted str_le (keys tables_items) ∧
    NoDup (keys tables_items) ∧
    as_mapping self.(tables) = Some (list_to_map tables_items) ∧
    StronglySorted str_le (keys informations_items) ∧
    NoDup (keys informations_items) ∧
    list_to_map informations_items = self.(informations) ∧
    ∀ other : Survey,
      is_mapping other.(tables) →
      as_mapping other.(tables) = as_mapping self.(tables) →
      other.(informations) = self.(informations) →
      other.(name) = self.(name) → other.(label) = self.(label) →
      other.(hdf5_file_path) = self.(hdf5_file_path) →
      to_json other = to_json self.
Proof.
  intros Hm. destruct (is_mapping_as_mapping _ Hm) as [registry Hreg].
  exists (sorted (map_to_list registry)),
         (sorted (map_to_list self.(informations))).
  split_and!.
  - by apply to_json_mapping.
  - apply keys_StronglySorted, sorted_StronglySorted.
  - apply keys_sorted_NoDup, NoDup_fst_map_to_list.
  - by rewrite sorted_map_to_list.
  - apply keys_StronglySorted, sorted_StronglySorted.
  - apply keys_sorted_NoDup, NoDup_fst_map_to_list.
  - apply sorted_map_to_list.
  - intros other Hm' Hreg' Hinfo Hname Hlabel Hpath.
    rewrite Hreg in Hreg'.
    rewrite (to_json_mapping self registry), (to_json_mapping other registry)
      by done.
    by rewrite Hinfo, Hname, Hlabel, Hpath.
Qed.

Lemma to_json_key_order_erfs :
  is_mapping erfs.(tables) ∧ ∃ doc, to_json erfs = Returns doc.
Proof.
  split; [exact I|].
  destruct (to_json_key_order erfs I) as (t & i & H & _). eauto.
Defined.

Lemma catalog_erfs : catalog erfs.
Proof.
  split; simpl; try done.
  - intros registry table entry [= <-].
    intros [_ <-]%lookup_singleton_Some. exact I.
  - by repeat constructor.
Qed.

Lemma create_from_json_to_json_erfs :
  catalog erfs ∧
  ∃ doc self', to_json erfs = Returns doc ∧ create_from_json doc = Returns self' ∧
               as_mapping self'.(tables) = as_mapping erfs.(tables).
Proof.
  split; [exact catalog_erfs|].
  destruct (create_from_json_to_json erfs catalog_erfs)
    as (doc & self' & H1 & H2 & _ & _ & _ & H3 & _).
  eauto.
Defined.

(** ** C8: registering a table *)

(** C8, as the code has it.  On a catalog, two calls of [insert_table] for
    one table name both return; after each, the table's attribute mapping is
    the given mapping merged over the one the table had (a key present in
    both takes the new value), so after the two calls it is the two given
    mappings merged over the attributes the table had before them; a table
    not yet registered starts from the empty mapping, so two calls with
    disjoint mappings on such a name leave the union of the two.  Other
    tables keep their attributes. *)
Theorem insert_table_twice (self : Survey) (table : string)
    (kwargs1 kwargs2 : gmap string pyval) :
  catalog self →
  ∃ self1 self2,
    insert_table self table kwargs1 = Returns self1 ∧
    insert_table self1 table kwargs2 = Returns self2 ∧
    catalog self2 ∧
    attributes_of self1 table
    = Some (kwargs1 ∪ default ∅ (attributes_of self table)) ∧
    attributes_of self2 table
    = Some (kwargs2 ∪ (kwargs1 ∪ default ∅ (attributes_of self table))) ∧
    (attributes_of self table = None →
     attributes_of self1 table = Some kwargs1 ∧
     (kwargs1 ##ₘ kwargs2 → attributes_of self2 table = Some (kwargs1 ∪ kwargs2))) ∧
    (∀ key val, kwargs2 !! key = Some val →
       ∃ attrs, attributes_of self2 table = Some attrs ∧ attrs !! key = Some val) ∧
    (∀ other, other ≠ table →
       attributes_of self2 other = attributes_of self other).
Proof.
  intros Hcat.
  destruct (insert_table_catalog self table kwargs1 Hcat)
    as (self1 & Hcall1 & Hcat1 & Hattrs1 & Hother1 & _).
  destruct (insert_table_catalog self1 table kwargs2 Hcat1)
    as (self2 & Hcall2 & Hcat2 & Hattrs2 & Hother2 & _).
  rewrite Hattrs1 in Hattrs2. simpl in Hattrs2.
  exists self1, self2. split_and!; try done.
  - intros Hnone. rewrite Hnone in Hattrs1, Hattrs2. simpl in *.
    rewrite (right_id_L ∅ (∪)) in Hattrs1, Hattrs2.
    split; [done|]. intros Hdisj. rewrite Hattrs2. f_equal.
    by apply map_union_comm.
  - intros key val Hkey. eexists. split; [done|].
    by apply lookup_union_Some_l.
  - intros other Hne. by rewrite Hother2, Hother1.
Qed.

Lemma insert_table_twice_erfs :
  catalog erfs ∧
  ∃ self1 self2,
    insert_table erfs "individu" {[ "Rdata_table" := PStr "indivi08" ]}
    = Returns self1 ∧
    insert_table self1 "individu" {[ "year" := PInt 2008 ]} = Returns self2 ∧
    attributes_of self2 "individu"
    = Some ({[ "year" := PInt 2008 ]} ∪
            ({[ "Rdata_table" := PStr "indivi08" ]} ∪ ∅)).
Proof.
  split; [exact catalog_erfs|].
  destruct (insert_table_twice erfs "individu"
              {[ "Rdata_table" := PStr "indivi08" ]} {[ "year" := PInt 2008 ]}
              catalog_erfs)
    as (self1 & self2 & H1 & H2 & _ & _ & H3 & _).
  exists self1, self2. split_and!; [done..|].
  rewrite H3. reflexivity.
Defined.

(** C8 as stated fails: [erfs] has the table [menage] registered with an
    ["Rdata_table"] attribute; after two calls with the disjoint mappings
    [{"year": 2008}] and [{"source": "insee"}] the table still has that
    attribute, so its attribute mapping is not the union of the two. *)
Lemma insert_table_twice_keeps_old_attributes :
  ∃ self1 self2,
    insert_table erfs "menage" {[ "year" := PInt 2008 ]} = Returns self1 ∧
    insert_table self1 "menage" {[ "source" := PStr "insee" ]} = Returns self2 ∧
    ({[ "year" := PInt 2008 ]} : gmap string pyval)
      ##ₘ {[ "source" := PStr "insee" ]} ∧
    (∃ attrs, attributes_of self2 "menage" = Some attrs ∧
              attrs !! "Rdata_table" = Some (PStr "menage08")) ∧
    attributes_of self2 "menage"
    ≠ Some ({[ "year" := PInt 2008 ]} ∪ {[ "source" := PStr "insee" ]}).
Proof.
  eexists _, _. split; [vm_compute; reflexivity|].
  split; [vm_compute; reflexivity|].
  split; [by apply map_disjoint_singleton_l, lookup_singleton_ne|].
  split.
  - eexists. split; [vm_compute; reflexivity|]. vm_compute. reflexivity.
  - vm_compute. discriminate.
Qed.

(** ** C10: documents that lack a key *)

(** C10.  For a document that has a name: without an ["informations"]
    entry, [create_from_json] raises ([**None] is a [TypeError]) instead of
    building a survey with empty informations; without a ["tables"] entry,
    and with informations that unpack into keyword arguments, it returns a
    survey whose registry is [None], not an empty mapping. *)
Theorem create_from_json_missing_keys (survey_json : pyval)
    (doc : gmap string pyval) (survey_name : pyval) :
  as_mapping survey_json = Some doc →
  doc !! "name" = Some survey_name → survey_name ≠ PNone →
  (doc !! "informations" = None →
   create_from_json survey_json = Raises TypeError) ∧
  (doc !! "tables" = None →
   ∀ kwargs,
     unpack_kwargs (default PNone (doc !! "informations")) = Returns kwargs →
     ∃ self, create_from_json survey_json = Returns self ∧
             self.(tables) = PNone ∧
             as_mapping self.(tables) = None ∧
             self.(name) = survey_name ∧
             self.(informations) = kwargs).
Proof.
  intros Hdoc Hname Hnn.
  assert (∀ k, py_get survey_json k = Returns (default PNone (doc !! k))) as Hget
    by (intros k; by apply py_get_mapping).
  split.
  - intros Hinfo. unfold create_from_json. by rewrite !Hget, Hinfo.
  - intros Htables kwargs Hkw.
    unfold create_from_json. rewrite !Hget.
    cbn [mbind pyresult_bind]. rewrite Hkw, Hname, Htables.
    cbn [mbind pyresult_bind from_option id].
    rewrite init_Returns by done. by eexists.
Qed.

Lemma create_from_json_missing_keys_name_only :
  create_from_json (PDict name_only_document) = Raises TypeError.
Proof.
  apply (create_from_json_missing_keys (PDict name_only_document)
           name_only_document (PStr "erfs_2008")); done.
Defined.

(** ** [find_tables] *)

(** Unfolds the operations of [M] down to functions on the heap. *)
Ltac run_M :=
  cbv beta iota delta
    [mbind mret M_bind M_ret lift raise emit get_tables_index
     tables_index_setitem get_columns].

Section find_tables.
Context (HDFStore : pyval → pyresult (gmap string DataFrame)).
Context (self : Survey) (store : gmap string DataFrame).
Context (Hstore : HDFStore self.(hdf5_file_path) = Returns store).

Lemma find_tables_loop_cached variable table tables container h columns :
  h.(tables_index) !! table = Some columns →
  find_tables_loop HDFStore self variable (table :: tables) container h
  = find_tables_loop HDFStore self variable tables
      (if bool_decide (variable ∈ columns) then container ++ [table]
       else container) h.
Proof.
  intros Hidx. cbn [find_tables_loop]. run_M. rewrite Hidx. by rewrite Hidx.
Qed.

Lemma find_tables_loop_build variable table tables container h df :
  h.(tables_index) !! table = None → store !! table = Some df →
  find_tables_loop HDFStore self variable (table :: tables) container h
  = find_tables_loop HDFStore self variable tables
      (if bool_decide (variable ∈ keys df) then container ++ [table]
       else container) (built table (keys df) h).
Proof using Hstore.
  intros Hidx Hdf. cbn [find_tables_loop]. run_M.
  rewrite Hidx, Hstore, Hdf. cbn [tables_index log].
  by rewrite lookup_insert_eq.
Qed.

Lemma find_tables_loop_missing variable table tables container h :
  h.(tables_index) !! table = None → store !! table = None →
  find_tables_loop HDFStore self variable (table :: tables) container h
  = (Raises (AssertionError (table_in_store table)), h).
Proof using Hstore.
  intros Hidx Hdf. cbn [find_tables_loop]. run_M.
  by rewrite Hidx, Hstore, Hdf.
Qed.

Lemma column_list_built table columns h t :
  h.(tables_index) !! table = None → column_list h store table = Some columns →
  column_list (built table columns h) store t = column_list h store t.
Proof.
  unfold column_list. simpl. intros Hidx. rewrite Hidx. intros Hcol.
  destruct (decide (table = t)) as [<-|Hne].
  - by rewrite lookup_insert_eq, Hidx.
  - by rewrite lookup_insert_ne.
Qed.
Lemma find_tables_loop_resolved variable tables : ∀ container h,
  Forall (λ t, is_Some (column_list h store t)) tables →
  ∃ h' new,
    find_tables_loop HDFStore self variable tables container h
    = (Returns (container ++
                filter (λ t, variable ∈ default [] (column_list h store t)) tables),
       h') ∧
    (∀ t, column_list h' store t = column_list h store t) ∧
    Forall (λ t, is_Some (h'.(tables_index) !! t)) tables ∧
    (∀ t, is_Some (h.(tables_index) !! t) →
          h'.(tables_index) !! t = h.(tables_index) !! t) ∧
    h'.(log) = h.(log) ++ new ∧
    NoDup new ∧
    Forall (λ r, ∃ t, r = info_building_columns_index t ∧ t ∈ tables ∧
                      h.(tables_index) !! t = None) new.
Proof using Hstore.
  induction tables as [|table tables IH]; intros container h Hall.
  - exists h, []. simpl. rewrite !app_nil_r.
    split_and!; try done; constructor.
  - apply Forall_cons in Hall as [Htable Hall].
    destruct (h.(tables_index) !! table) as [columns|] eqn:Hidx.
    + rewrite (find_tables_loop_cached _ _ _ _ _ columns) by done.
      destruct (IH (if bool_decide (variable ∈ columns)
                    then container ++ [table] else container) h Hall)
        as (h' & new & Hrun & Hcol & Hcached & Hext & Hlog & Hnd & Hnew).
      exists h', new. rewrite Hrun. split_and!; try done.
      * assert (column_list h store table = Some columns) as Hcl
          by (unfold column_list; by rewrite Hidx).
        f_equal. f_equal. rewrite filter_cons. cbn beta. rewrite Hcl. simpl.
        case_bool_decide; [rewrite decide_True by done|rewrite decide_False by done];
          [by rewrite <- (assoc_L (++))|done].
      * constructor; [|done]. rewrite Hext by (by rewrite Hidx). by rewrite Hidx.
      * eapply Forall_impl; [exact Hnew|]. intros r (t & -> & Ht & Hnone).
        exists t. split_and!; [done| |done]. by right.
    + assert (∃ df, store !! table = Some df) as [df Hdf].
      { unfold column_list in Htable. rewrite Hidx in Htable.
        destruct (store !! table); [by eexists|by destruct Htable]. }
      assert (column_list h store table = Some (keys df)) as Hcl.
      { unfold column_list. by rewrite Hidx, Hdf. }
      rewrite (find_tables_loop_build _ _ _ _ _ df) by done.
      destruct (IH (if bool_decide (variable ∈ keys df)
                    then container ++ [table] else container)
                  (built table (keys df) h))
        as (h' & new & Hrun & Hcol & Hcached & Hext & Hlog & Hnd & Hnew).
      { eapply Forall_impl; [exact Hall|]. intros t Ht.
        by rewrite column_list_built. }
      exists h', (info_building_columns_index table :: new).
      rewrite Hrun. split_and!.
      * f_equal. f_equal. rewrite filter_cons. cbn beta. rewrite Hcl. simpl.
        rewrite (list_filter_iff
                   (λ t, variable ∈ default [] (column_list (built table (keys df) h) store t))
                   (λ t, variable ∈ default [] (column_list h store t)))
          by (intros t; by rewrite column_list_built).
        case_bool_decide; [rewrite decide_True by done|rewrite decide_False by done];
          [by rewrite <- (assoc_L (++))|done].
      * intros t. rewrite Hcol. by apply column_list_built.
      * constructor; [|done]. rewrite Hext; simpl; by rewrite lookup_insert_eq.
      * intros t Ht. rewrite Hext; simpl.
        -- rewrite lookup_insert_ne; [done|]. intros ->. rewrite Hidx in Ht.
           by destruct Ht.
        -- rewrite lookup_insert_ne; [done|]. intros ->. rewrite Hidx in Ht.
           by destruct Ht.
      * rewrite Hlog. simpl. by rewrite <- (assoc_L (++)).
      * constructor; [|done]. intros Hin.
        rewrite Forall_forall in Hnew.
        destruct (Hnew _ Hin) as (t & [= <-] & _ & Hnone).
        simpl in Hnone. by rewrite lookup_insert_eq in Hnone.
      * constructor.
        -- exists table. split_and!; [done|by left|done].
        -- eapply Forall_impl; [exact Hnew|]. intros r (t & -> & Ht & Hnone).
           exists t. split_and!; [done|by right|].
           simpl in Hnone. by apply lookup_insert_None in Hnone as [? _].
Qed.

Lemma find_tables_loop_all_cached variable tables : ∀ container h,
  Forall (λ t, is_Some (h.(tables_index) !! t)) tables →
  find_tables_loop HDFStore self variable tables container h
  = (Returns (container ++
              filter (λ t, variable ∈ default [] (column_list h store t)) tables),
     h).
Proof.
  induction tables as [|table tables IH]; intros container h Hall.
  - simpl. by rewrite app_nil_r.
  - apply Forall_cons in Hall as [[columns Hidx] Hall].
    rewrite (find_tables_loop_cached _ _ _ _ _ columns) by done.
    assert (column_list h store table = Some columns) as Hcl
      by (unfold column_list; by rewrite Hidx).
    rewrite IH by done. f_equal. f_equal. rewrite filter_cons. cbn beta.
    rewrite Hcl. simpl.
    case_bool_decide; [rewrite decide_True by done|rewrite decide_False by done];
      [by rewrite <- (assoc_L (++))|done].
Qed.

Lemma find_tables_loop_unresolved variable tables : ∀ container h,
  Exists (λ t, column_list h store t = None) tables →
  ∃ t h',
    t ∈ tables ∧ column_list h store t = None ∧
    find_tables_loop HDFStore self variable tables container h
    = (Raises (AssertionError (table_in_store t)), h').
Proof using Hstore.
  induction tables as [|table tables IH]; intros container h Hex.
  - by apply Exists_nil in Hex.
  - destruct (column_list h store table) as [columns|] eqn:Hcl.
    + apply Exists_cons in Hex as [Hex|Hex]; [congruence|].
      destruct (h.(tables_index) !! table) as [columns'|] eqn:Hidx.
      * rewrite (find_tables_loop_cached _ _ _ _ _ columns') by done.
        destruct (IH (if bool_decide (variable ∈ columns')
                      then container ++ [table] else container) h Hex)
          as (t & h' & Ht & Hnone & Hrun).
        exists t, h'. split_and!; [by right|done..].
      * assert (∃ df, store !! table = Some df) as [df Hdf].
        { unfold column_list in Hcl. rewrite Hidx in Hcl.
          destruct (store !! table); [by eexists|done]. }
        rewrite (find_tables_loop_build _ _ _ _ _ df) by done.
        destruct (IH (if bool_decide (variable ∈ keys df)
                      then container ++ [table] else container)
                    (built table (keys df) h))
          as (t & h' & Ht & Hnone & Hrun).
        { eapply Exists_impl; [exact Hex|]. intros t Ht.
          rewrite (column_list_built _ (keys df)); [done..|].
          unfold column_list. by rewrite Hidx, Hdf. }
        exists t, h'. split_and!; [by right| |done].
        rewrite (column_list_built _ (keys df)) in Hnone; [done..|].
        unfold column_list. by rewrite Hidx, Hdf.
    + exists table, h. split_and!; [by left|done|].
      unfold column_list in Hcl.
      destruct (h.(tables_index) !! table) eqn:Hidx; [done|].
      destruct (store !! table) eqn:Hdf; [done|].
      by apply find_tables_loop_missing.
Qed.
End find_tables.

(** ** C6: table discovery *)

(** C6, as the code has it.  Without a variable [find_tables] raises the
    assertion error and leaves the heap as it was.  With a variable and a
    list of table names each of which has a column list (held in
    [tables_index], or else being in the store): it returns, in the order of
    the list, the names whose column list holds the variable; the call
    builds the index of a table at most once, and only of tables that had
    none, and changes no entry of [tables_index] that was there; a second
    call with the same arguments returns the same list and leaves the heap,
    so also the log, as the first call left it.  When a listed table has no
    column list, the call raises the assertion error of [get_columns]. *)
Theorem find_tables_cached_lookup
    (HDFStore : pyval → pyresult (gmap string DataFrame)) (self : Survey)
    (store : gmap string DataFrame) (variable : string)
    (tables : list string) (h : heap) :
  HDFStore self.(hdf5_file_path) = Returns store →
  find_tables HDFStore self None (Some tables) h
  = (Raises (AssertionError variable_is_not_None), h) ∧
  kind_of (AssertionError variable_is_not_None) = InvalidArgument ∧
  (Forall (λ t, is_Some (column_list h store t)) tables →
   ∃ h' new,
     find_tables HDFStore self (Some variable) (Some tables) h
     = (Returns (filter (λ t, variable ∈ default [] (column_list h store t)) tables),
        h') ∧
     find_tables HDFStore self (Some variable) (Some tables) h'
     = (Returns (filter (λ t, variable ∈ default [] (column_list h store t)) tables),
        h') ∧
     h'.(log) = h.(log) ++ new ∧
     NoDup new ∧
     Forall (λ r, ∃ t, r = info_building_columns_index t ∧ t ∈ tables ∧
                       h.(tables_index) !! t = None) new ∧
     (∀ t, is_Some (h.(tables_index) !! t) →
           h'.(tables_index) !! t = h.(tables_index) !! t)) ∧
  (Exists (λ t, column_list h store t = None) tables →
   ∃ t h',
     t ∈ tables ∧ column_list h store t = None ∧
     find_tables HDFStore self (Some variable) (Some tables) h
     = (Raises (AssertionError (table_in_store t)), h') ∧
     kind_of (AssertionError (table_in_store t)) = NotFound).
Proof.
  intros Hstore. split_and!; try done.
  - intros Hall.
    destruct (find_tables_loop_resolved HDFStore self store Hstore
                variable tables [] h Hall)
      as (h' & new & Hrun & Hcol & Hcached & Hext & Hlog & Hnd & Hnew).
    exists h', new. split_and!; try done.
    unfold find_tables. run_M.
    rewrite (find_tables_loop_all_cached HDFStore self store) by done.
    simpl. f_equal. f_equal. apply list_filter_iff. intros t. by rewrite Hcol.
  - intros Hex.
    destruct (find_tables_loop_unresolved HDFStore self store Hstore
                variable tables [] h Hex)
      as (t & h' & Ht & Hnone & Hrun).
    by exists t, h'.
Qed.

Lemma find_tables_cached_lookup_erfs :
  ∃ h', find_tables example_HDFStore erfs (Some "rfr") (Some ["foyer"; "foyer"])
          empty_heap
        = (Returns ["foyer"; "foyer"], h') ∧
        h'.(log) = [info_building_columns_index "foyer"].
Proof.
  destruct (find_tables_cached_lookup example_HDFStore erfs erfs_h5 "rfr"
              ["foyer"; "foyer"] empty_heap eq_refl)
    as (_ & _ & H & _).
  destruct H as (h' & new & Hrun & _).
  { repeat constructor; by eexists. }
  exists h'. rewrite Hrun. split; [reflexivity|].
  injection Hrun as <-. reflexivity.
Defined.

(** C6 as stated fails: a listed name that is neither indexed nor in the
    store makes the call raise instead of returning the matching names. *)
Lemma find_tables_unknown_table_raises :
  ∃ h', find_tables example_HDFStore budget (Some "ident")
          (Some ["menage"; "individu"]) empty_heap
        = (Raises (AssertionError (table_in_store "individu")), h').
Proof. eexists. vm_compute. reflexivity. Qed.

(** ** C1: one [tables_index] for all instances *)

(** C1 fails on the code.  [erfs] and [budget] are two surveys over two
    files.  Before any call [budget] sees an empty [tables_index]; after a
    [find_tables] on [erfs] it sees the index built for [erfs]; and its own
    [find_tables] then answers from that index: it reports ["rfr"] in its
    [foyer] table, whose columns are [ident] and [revenu], and misses
    ["revenu"]. *)
Lemma tables_index_shared_between_instances :
  let after_erfs :=
    find_tables example_HDFStore erfs (Some "rfr") (Some ["foyer"]) empty_heap in
  after_erfs.1 = Returns ["foyer"] ∧
  (get_tables_index budget empty_heap).1 = Returns ∅ ∧
  (get_tables_index budget after_erfs.2).1
  = Returns {[ "foyer" := ["ident"; "rfr"] ]} ∧
  (get_columns example_HDFStore budget (Some "foyer") empty_heap).1
  = Returns ["ident"; "revenu"] ∧
  (find_tables example_HDFStore budget (Some "rfr") (Some ["foyer"]) empty_heap).1
  = Returns [] ∧
  (find_tables example_HDFStore budget (Some "rfr") (Some ["foyer"]) after_erfs.2).1
  = Returns ["foyer"] ∧
  (find_tables example_HDFStore budget (Some "revenu") (Some ["foyer"]) after_erfs.2).1
  = Returns [].
Proof. vm_compute. by split_and!. Qed.

(** ** [get_values]: the renaming of the columns *)

Lemma lookup_lower_columns (f : string → string) (column_names : list string) c :
  (list_to_map (map (λ c, (c, f c)) column_names) : gmap string string) !! c
  = if decide (c ∈ column_names) then Some (f c) else None.
Proof.
  induction column_names as [|x l IH]; simpl.
  - by rewrite lookup_empty.
  - destruct (decide (x = c)) as [->|Hne].
    + rewrite lookup_insert_eq. by rewrite decide_True by left.
    + rewrite lookup_insert_ne by done. rewrite IH.
      destruct (decide (c ∈ l)).
      * by rewrite decide_True by (by right).
      * rewrite decide_False; [done|]. rewrite elem_of_cons. by intros [->|?].
Qed.

Lemma df_rename_cells mapper (df : DataFrame) : (df_rename mapper df).*2 = df.*2.
Proof. unfold df_rename. induction df as [|[c d] df IH]; simpl; by f_equal. Qed.

Lemma df_rename_keys mapper (df : DataFrame) :
  keys (df_rename mapper df) = map (λ c, default c (mapper !! c)) (keys df).
Proof. unfold df_rename, keys. induction df as [|[c d] df IH]; simpl; by f_equal. Qed.

Lemma get_values_lowercase_keys (df : DataFrame) :
  keys (get_values_lowercase df) = map lower (keys df).
Proof.
  unfold get_values_lowercase. rewrite df_rename_keys.
  apply map_ext_in. intros c Hc%list_elem_of_In.
  rewrite lookup_lower_columns. by rewrite decide_True.
Qed.

Lemma df_rename_singleton_keys c (df : DataFrame) :
  keys (df_rename {[ c := "ident" ]} df)
  = map (λ x, if decide (x = c) then "ident" else x) (keys df).
Proof.
  rewrite df_rename_keys. apply map_ext. intros x.
  destruct (decide (x = c)) as [->|Hne].
  - by rewrite lookup_singleton_eq.
  - by rewrite lookup_singleton_ne.
Qed.

(** The loop stops at the first label that matches. *)
Lemma get_values_rename_ident_find column_names (df : DataFrame) h :
  get_values_rename_ident column_names df h
  = match find ident_re_match column_names with
    | Some first =>
        (Returns (df_rename {[ first := "ident" ]} df),
         {| tables_index := h.(tables_index);
            log := h.(log) ++ [info_replaced_by_ident first] |})
    | None => (Returns df, h)
    end.
Proof.
  induction column_names as [|c l IH]; simpl; [done|].
  destruct (ident_re_match c); [done|]. apply IH.
Qed.

(** Where labels are distinct, renaming by label renames one column. *)
Lemma rename_label_of_first_match_NoDup column_names :
  NoDup column_names →
  rename_label_of_first_match column_names = rename_first_match column_names.
Proof.
  unfold rename_label_of_first_match.
  induction column_names as [|x l IH]; intros Hnd; simpl; [done|].
  apply NoDup_cons in Hnd as [Hx Hnd].
  destruct (ident_re_match x) eqn:Hmatch.
  - rewrite decide_True by done. f_equal.
    rewrite <- (map_id l) at 2. apply map_ext_in. intros c Hc%list_elem_of_In.
    rewrite decide_False; [done|]. by intros ->.
  - specialize (IH Hnd). destruct (find ident_re_match l) as [first|] eqn:Hfind.
    + rewrite decide_False.
      * by rewrite IH.
      * intros ->. apply find_some in Hfind as [_ Hfirst]. congruence.
    + by f_equal.
Qed.

Lemma get_values_normalize_default (df : DataFrame) h :
  ∃ df' h',
    get_values_normalize true true df h = (Returns df', h') ∧
    keys df' = rename_label_of_first_match (map lower (keys df)) ∧
    df'.*2 = df.*2 ∧
    h'.(tables_index) = h.(tables_index).
Proof.
  unfold get_values_normalize. rewrite get_values_rename_ident_find.
  rewrite get_values_lowercase_keys. unfold rename_label_of_first_match.
  destruct (find ident_re_match (map lower (keys df))) as [first|].
  - eexists _, _. split_and!; [done| | |done].
    + by rewrite df_rename_singleton_keys, get_values_lowercase_keys.
    + unfold get_values_lowercase. by rewrite !df_rename_cells.
  - eexists _, _. split_and!; [done| | |done].
    + by rewrite get_values_lowercase_keys.
    + unfold get_values_lowercase. by rewrite !df_rename_cells.
Qed.

(** A call with a list of variables is the call without one, followed by
    the selection. *)
Lemma get_values_select_after HDFStore self variables table lowercase rename_ident h :
  get_values HDFStore self variables table lowercase rename_ident h
  = match get_values HDFStore self None table lowercase rename_ident h with
    | (Returns df, h') => (get_values_select variables df, h')
    | (Raises e, h') => (Raises e, h')
    end.
Proof.
  unfold get_values. run_M.
  destruct (HDFStore (hdf5_file_path self)) as [store|e]; [|done].
  destruct (get_values_frame self store table) as [df|e]; [|done].
  by destruct (get_values_normalize lowercase rename_ident df h) as [[df'|e] h'].
Qed.

Lemma get_values_frame_normalize HDFStore self store variables table
    lowercase rename_ident h df :
  HDFStore self.(hdf5_file_path) = Returns store →
  get_values_frame self store table = Returns df →
  get_values HDFStore self variables table lowercase rename_ident h
  = (df' ← get_values_normalize lowercase rename_ident df;
     lift (get_values_select variables df')) h.
Proof. intros Hstore Hframe. unfold get_values. run_M. by rewrite Hstore, Hframe. Qed.

(** ** C4: the identifier column *)

(** C4, as the code has it.  With the defaults, [get_values] returns the
    table with its cells untouched and its labels lowercased, after which
    the first label (from the left) that matches [ident_re] is replaced by
    [ident] in every column that carries it; the other columns keep their
    lowercased labels, whether they match or not.  Where the lowercased
    labels are distinct, this renames the first matching column only.  The
    labels [IDENT08], [Salaire] become [ident], [salaire]. *)
Theorem get_values_renames_ident
    (HDFStore : pyval → pyresult (gmap string DataFrame)) (self : Survey)
    (store : gmap string DataFrame) (table : string) (df : DataFrame) (h : heap) :
  HDFStore self.(hdf5_file_path) = Returns store →
  get_values_frame self store table = Returns df →
  ∃ df' h',
    get_values HDFStore self None table true true h = (Returns df', h') ∧
    df'.*2 = df.*2 ∧
    keys df' = rename_label_of_first_match (map lower (keys df)) ∧
    (NoDup (map lower (keys df)) →
     keys df' = rename_first_match (map lower (keys df))) ∧
    (keys df = ["IDENT08"; "Salaire"] → keys df' = ["ident"; "salaire"]).
Proof.
  intros Hstore Hframe.
  destruct (get_values_normalize_default df h) as (df' & h' & Hrun & Hkeys & Hcells & _).
  exists df', h'. split_and!; try done.
  - rewrite (get_values_frame_normalize _ _ store _ _ _ _ _ df) by done.
    run_M. by rewrite Hrun.
  - intros Hnd. rewrite Hkeys. by apply rename_label_of_first_match_NoDup.
  - intros Hk. rewrite Hkeys, Hk. reflexivity.
Qed.

Lemma get_values_renames_ident_menage :
  ∃ df' h',
    get_values example_HDFStore erfs None "menage" true true empty_heap
    = (Returns df', h') ∧
    keys df' = ["ident"; "salaire"].
Proof.
  destruct (get_values_renames_ident example_HDFStore erfs erfs_h5 "menage"
              [("IDENT08", [PInt 1; PInt 2]); ("Salaire", [PInt 450; PInt 610])]
              empty_heap eq_refl eq_refl)
    as (df' & h' & Hrun & _ & _ & _ & Hex).
  exists df', h'. split; [exact Hrun|]. by apply Hex.
Defined.

(** C4 as stated fails: in the table [panel], the labels [IDENT08] and
    [ident08] are one label once lowercased, and both columns are renamed;
    the second, a further matching column, does not keep its name. *)
Lemma get_values_renames_equal_labels :
  ∃ df' h',
    get_values example_HDFStore erfs None "panel" true true empty_heap
    = (Returns df', h') ∧
    keys df' = ["ident"; "ident"; "salaire"] ∧
    rename_first_match (map lower ["IDENT08"; "ident08"; "Salaire"])
    = ["ident"; "ident08"; "salaire"] ∧
    keys df' ≠ rename_first_match (map lower ["IDENT08"; "ident08"; "Salaire"]).
Proof.
  eexists _, _. split; [vm_compute; reflexivity|].
  split; [reflexivity|]. split; [reflexivity|]. vm_compute. discriminate.
Qed.

(** ** C5: the selection of variables *)

Lemma filter_label_split (v : string) (l : list string) (df : DataFrame) :
  v ∉ l →
  filter (λ col, col.1 ∈ v :: l) df
  ≡ₚ filter (λ col, col.1 = v) df ++ filter (λ col, col.1 ∈ l) df.
Proof.
  intros Hv. induction df as [|col df IH]; [done|].
  rewrite !filter_cons.
  destruct (decide (col.1 = v)) as [Heq|Hne].
  - rewrite decide_True by (rewrite Heq; left).
    rewrite decide_False by (by rewrite Heq). simpl. by f_equiv.
  - destruct (decide (col.1 ∈ l)) as [Hin|Hnin].
    + rewrite decide_True by (by right).
      rewrite IH. apply Permutation_middle.
    + rewrite decide_False; [done|]. rewrite elem_of_cons. by intros [?|?].
Qed.

Lemma filter_ext_elem_of {A} (P Q : A → Prop) `{∀ x, Decision (P x)}
    `{∀ x, Decision (Q x)} (l : list A) :
  (∀ x, x ∈ l → P x ↔ Q x) → filter P l = filter Q l.
Proof.
  induction l as [|x l IH]; intros Hext; [done|].
  rewrite !filter_cons.
  rewrite IH by (intros y Hy; apply Hext; by right).
  destruct (decide (P x)) as [HP|HP].
  - by rewrite decide_True by (apply Hext; [left|done]).
  - rewrite decide_False; [done|]. intros HQ. apply HP, Hext; [left|done].
Qed.

Lemma df_getitem_Permutation (variables : list string) (df : DataFrame) :
  NoDup variables →
  df_getitem variables df ≡ₚ filter (λ col, col.1 ∈ variables) df.
Proof.
  unfold df_getitem. induction 1 as [|v l Hv Hnd IH]; simpl.
  - induction df as [|col df IHdf]; [done|].
    rewrite filter_cons. rewrite decide_False by apply not_elem_of_nil. done.
  - rewrite IH. symmetry. by apply filter_label_split.
Qed.

(** C5.  Let [df] be the table a call without variables returns (the table
    after the renamings).  The same call with a list of variables raises the
    exception that carries the set of the variables that are no label of
    [df], when that set is not empty; otherwise it returns the columns of
    [df] whose label is among the variables, in some order, and the set of
    their labels is the intersection of the variables with the labels of
    [df]. *)
Theorem get_values_selects
    (HDFStore : pyval → pyresult (gmap string DataFrame)) (self : Survey)
    (variables : list string) (table : string) (lowercase rename_ident : bool)
    (h h' : heap) (df : DataFrame) :
  get_values HDFStore self None table lowercase rename_ident h = (Returns df, h') →
  let missing : gset string := list_to_set variables ∖ list_to_set (keys df) in
  (missing ≠ ∅ →
   get_values HDFStore self (Some variables) table lowercase rename_ident h
   = (Raises (Exception missing), h') ∧
   kind_of (Exception missing) = MissingVariables) ∧
  (missing = ∅ →
   ∃ selected,
     get_values HDFStore self (Some variables) table lowercase rename_ident h
     = (Returns selected, h') ∧
     selected ≡ₚ filter (λ col, col.1 ∈ variables) df ∧
     (list_to_set (keys selected) : gset string)
     = list_to_set variables ∩ list_to_set (keys df)).
Proof.
  intros Hrun missing.
  rewrite (get_values_select_after _ _ (Some variables)), Hrun.
  unfold get_values_select. fold missing. split.
  - intros Hne. by rewrite decide_False.
  - intros Hempty. rewrite decide_True by done. eexists. split; [done|].
    assert (df_getitem
              (elements ((list_to_set variables : gset string) ∩ list_to_set (keys df))) df
            ≡ₚ filter (λ col, col.1 ∈ variables) df) as Hperm.
    { rewrite df_getitem_Permutation by apply NoDup_elements.
      apply reflexive_eq, filter_ext_elem_of. intros col Hcol.
      rewrite elem_of_elements, elem_of_intersection, !elem_of_list_to_set.
      split; [by intros [? _]|]. intros Hv. split; [done|].
      apply list_elem_of_fmap. by exists col. }
    split; [done|]. unfold keys at 1. rewrite Hperm.
    apply set_eq. intros k.
    rewrite elem_of_intersection, !elem_of_list_to_set, list_elem_of_fmap.
    split.
    + intros (col & -> & [Hv Hcol]%list_elem_of_filter). split; [done|].
      apply list_elem_of_fmap. by exists col.
    + intros [Hv (col & -> & Hcol)%list_elem_of_fmap].
      exists col. split; [done|]. by apply list_elem_of_filter.
Qed.

Lemma get_values_selects_T :
  get_values example_HDFStore erfs (Some ["a"; "b"]) "T" true true empty_heap
  = (Raises (Exception {[ "b" ]}), empty_heap).
Proof.
  apply (get_values_selects example_HDFStore erfs ["a"; "b"] "T" true true
           empty_heap empty_heap [("a", [PInt 1]); ("c", [PInt 3])] eq_refl).
  vm_compute. discriminate.
Defined.

(** ** C9: which table of the store is read *)

(** C9.  With the store open and the registry a mapping: when the store
    has [table], [get_values] works on that table; when it has not, and the
    registry entry of [table] names under ["Rdata_table"] a table of the
    store, it works on that one; and when the store has not [table] and the
    registry has no entry for it, or the entry has no ["Rdata_table"]
    attribute, or that attribute names no table of the store, the call
    raises [KeyError] and leaves the heap as it was. *)
Theorem get_values_frame_resolution
    (HDFStore : pyval → pyresult (gmap string DataFrame)) (self : Survey)
    (store : gmap string DataFrame) (registry : gmap string pyval)
    (variables : option (list string)) (table : string)
    (lowercase rename_ident : bool) (h : heap) :
  HDFStore self.(hdf5_file_path) = Returns store →
  as_mapping self.(tables) = Some registry →
  (∀ df, store !! table = Some df →
     get_values_frame self store table = Returns df ∧
     get_values HDFStore self variables table lowercase rename_ident h
     = (df' ← get_values_normalize lowercase rename_ident df;
        lift (get_values_select variables df')) h) ∧
  (store !! table = None →
   (∀ entry attrs Rdata_table df,
      registry !! table = Some entry → as_mapping entry = Some attrs →
      attrs !! "Rdata_table" = Some (PStr Rdata_table) →
      store !! Rdata_table = Some df →
      get_values_frame self store table = Returns df ∧
      get_values HDFStore self variables table lowercase rename_ident h
      = (df' ← get_values_normalize lowercase rename_ident df;
         lift (get_values_select variables df')) h) ∧
   (registry !! table = None ∨
    (∃ entry attrs,
       registry !! table = Some entry ∧ as_mapping entry = Some attrs ∧
       (attrs !! "Rdata_table" = None ∨
        ∃ key, attrs !! "Rdata_table" = Some key ∧
               store_getitem store key = Raises (KeyError key))) →
    ∃ key,
      get_values HDFStore self variables table lowercase rename_ident h
      = (Raises (KeyError key), h) ∧
      kind_of (KeyError key) = NotFound)).
Proof.
  intros Hstore Hreg. split; [|intros Hnone; split].
  - intros df Hdf.
    assert (get_values_frame self store table = Returns df) as Hframe.
    { unfold get_values_frame. simpl. by rewrite Hdf. }
    split; [done|]. by apply (get_values_frame_normalize _ _ store).
  - intros entry attrs Rdata_table df Hentry Hattrs Hkey Hdf.
    assert (get_values_frame self store table = Returns df) as Hframe.
    { unfold get_values_frame. simpl. rewrite Hnone.
      rewrite (py_getitem_mapping _ _ _ Hreg), Hentry. simpl.
      rewrite (py_getitem_mapping _ _ _ Hattrs), Hkey. simpl. by rewrite Hdf. }
    split; [done|]. by apply (get_values_frame_normalize _ _ store).
  - intros Hcases.
    assert (∃ key, get_values_frame self store table = Raises (KeyError key))
      as [key Hframe].
    { unfold get_values_frame. simpl. rewrite Hnone.
      rewrite (py_getitem_mapping _ _ _ Hreg).
      destruct Hcases as [->|(entry & attrs & -> & Hattrs & Hkey)];
        [by eexists|].
      simpl. rewrite (py_getitem_mapping _ _ _ Hattrs).
      destruct Hkey as [->|(key & -> & Hget)]; [by eexists|].
      simpl. rewrite Hget. by eexists. }
    exists key. split; [|done].
    unfold get_values. run_M. by rewrite Hstore, Hframe.
Qed.

Lemma get_values_frame_resolution_menage :
  get_values_frame erfs erfs_h5 "menage"
  = Returns [("IDENT08", [PInt 1; PInt 2]); ("Salaire", [PInt 450; PInt 610])].
Proof.
  destruct (get_values_frame_resolution example_HDFStore erfs erfs_h5
              {[ "menage" := PDict {[ "Rdata_table" := PStr "menage08" ]} ]}
              None "menage" true true empty_heap eq_refl eq_refl)
    as [_ [H _]]; [reflexivity|].
  by apply (H (PDict {[ "Rdata_table" := PStr "menage08" ]})
              {[ "Rdata_table" := PStr "menage08" ]} "menage08").
Defined.

(** * Further properties of the module *)

(** ** Characters and [ident_re] *)

Lemma lower_char_idemp c : lower_char (lower_char c) = lower_char c.
Proof. by destruct c as [[] [] [] [] [] [] [] []]. Qed.

Lemma is_digit_lower_char c : is_digit (lower_char c) = is_digit c.
Proof. by destruct c as [[] [] [] [] [] [] [] []]. Qed.

Lemma newline_lower_char c :
  Ascii.eqb (lower_char c) "010"%char = Ascii.eqb c "010"%char.
Proof. by destruct c as [[] [] [] [] [] [] [] []]. Qed.

Lemma lower_idemp s : lower (lower s) = lower s.
Proof. induction s as [|c s IH]; simpl; [done|]. by rewrite lower_char_idemp, IH. Qed.

Lemma at_dollar_lower s : at_dollar (lower s) = at_dollar s.
Proof.
  destruct s as [|c [|c' s]]; simpl; [done| |done]. apply newline_lower_char.
Qed.

Lemma match_digits_dollar_lower lo hi s :
  match_digits_dollar lo hi (lower s) = match_digits_dollar lo hi s.
Proof.
  revert lo s. induction hi as [|hi IH]; intros lo s.
  - cbn [match_digits_dollar]. by rewrite at_dollar_lower.
  - destruct s as [|c s]; [done|].
    cbn [match_digits_dollar lower].
    rewrite IH, is_digit_lower_char. f_equal. f_equal.
    apply (at_dollar_lower (String c s)).
Qed.

Lemma match_literal_i_lower lit s :
  match_literal_i lit (lower s) = lower <$> match_literal_i lit s.
Proof.
  revert s. induction lit as [|a lit IH]; intros s; [done|].
  destruct s as [|c s]; [done|]. simpl.
  rewrite lower_char_idemp. by destruct (Ascii.eqb (lower_char a) (lower_char c)).
Qed.

Lemma ident_re_match_lower_eq s : ident_re_match (lower s) = ident_re_match s.
Proof.
  unfold ident_re_match. rewrite match_literal_i_lower.
  destruct (match_literal_i "ident" s); cbn [fmap option_fmap option_map]; [|done].
  apply match_digits_dollar_lower.
Qed.

Lemma find_ident_re_lower column_names :
  find ident_re_match (map lower column_names)
  = lower <$> find ident_re_match column_names.
Proof.
  induction column_names as [|c l IH]; simpl; [done|].
  rewrite ident_re_match_lower_eq. by destruct (ident_re_match c).
Qed.

(** X1.  [ident_re] is blind to case: a name matches exactly when its
    lowercase form does.  So the first matching label of a table sits at the
    same place whether or not the labels were lowercased before the scan. *)
Theorem ident_re_match_lower (s : string) (column_names : list string) :
  ident_re_match (lower s) = ident_re_match s ∧
  find ident_re_match (map lower column_names)
  = lower <$> find ident_re_match column_names.
Proof. split; [apply ident_re_match_lower_eq|apply find_ident_re_lower]. Qed.

(** ** [get_values]: labels, cells and the heap *)

Lemma get_values_normalize_labels lowercase rename_ident (df : DataFrame) h :
  ∃ df' h',
    get_values_normalize lowercase rename_ident df h = (Returns df', h') ∧
    df'.*2 = df.*2 ∧
    keys df'
    = (if rename_ident then rename_label_of_first_match else id)
        ((if lowercase then map lower else id) (keys df)) ∧
    h'.(tables_index) = h.(tables_index) ∧
    h'.(log)
    = h.(log) ++
      (if rename_ident then
         match find ident_re_match (keys df) with
         | Some first =>
             [info_replaced_by_ident (if lowercase then lower first else first)]
         | None => []
         end
       else []).
Proof.
  unfold get_values_normalize, rename_label_of_first_match.
  destruct rename_ident, lowercase; cbn [id];
    rewrite ?get_values_rename_ident_find, ?get_values_lowercase_keys,
      ?find_ident_re_lower;
    try destruct (find ident_re_match (keys df)) as [first|];
    cbn [fmap option_fmap option_map id];
    (eexists _, _; split; [done|]);
    split_and!;
    rewrite ?df_rename_singleton_keys, ?get_values_lowercase_keys;
    unfold get_values_lowercase;
    rewrite ?df_rename_cells, ?app_nil_r; done.
Qed.

(** X2.  For a table that resolves, [get_values] without a list of variables
    returns it with every cell, and the number and order of its columns,
    as stored; only labels change: lowercased when [lowercase], then (when
    [rename_ident]) the first matching label replaced by [ident].  The call
    leaves [tables_index] alone and logs one record exactly when a label is
    replaced. *)
Theorem get_values_labels
    (HDFStore : pyval → pyresult (gmap string DataFrame)) (self : Survey)
    (store : gmap string DataFrame) (table : string)
    (lowercase rename_ident : bool) (df : DataFrame) (h : heap) :
  HDFStore self.(hdf5_file_path) = Returns store →
  get_values_frame self store table = Returns df →
  ∃ df' h',
    get_values HDFStore self None table lowercase rename_ident h
    = (Returns df', h') ∧
    df'.*2 = df.*2 ∧
    List.length df' = List.length df ∧
    keys df'
    = (if rename_ident then rename_label_of_first_match else id)
        ((if lowercase then map lower else id) (keys df)) ∧
    h'.(tables_index) = h.(tables_index) ∧
    h'.(log)
    = h.(log) ++
      (if rename_ident then
         match find ident_re_match (keys df) with
         | Some first =>
             [info_replaced_by_ident (if lowercase then lower first else first)]
         | None => []
         end
       else []).
Proof.
  intros Hstore Hframe.
  destruct (get_values_normalize_labels lowercase rename_ident df h)
    as (df' & h' & Hrun & Hcells & Hkeys & Hidx & Hlog).
  exists df', h'. split_and!; try done.
  - rewrite (get_values_frame_normalize _ _ store _ _ _ _ _ df) by done.
    run_M. by rewrite Hrun.
  - by rewrite <- (length_fmap snd df'), Hcells, length_fmap.
Qed.

Lemma get_values_labels_menage :
  ∃ df' h',
    get_values example_HDFStore erfs None "menage" false true empty_heap
    = (Returns df', h') ∧
    keys df' = ["ident"; "Salaire"] ∧
    h'.(log) = [info_replaced_by_ident "IDENT08"].
Proof.
  destruct (get_values_labels example_HDFStore erfs erfs_h5 "menage" false true
              [("IDENT08", [PInt 1; PInt 2]); ("Salaire", [PInt 450; PInt 610])]
              empty_heap eq_refl eq_refl)
    as (df' & h' & Hrun & _ & _ & Hkeys & _ & Hlog).
  exists df', h'. split_and!; [exact Hrun|exact Hkeys|exact Hlog].
Defined.

(** ** [get_values] and [get_value]: names are lowercase *)

Lemma rename_label_of_first_match_lower (column_names : list string) :
  Forall (λ c, lower c = c) column_names →
  Forall (λ c, lower c = c) (rename_label_of_first_match column_names).
Proof.
  unfold rename_label_of_first_match. intros Hall.
  destruct (find ident_re_match column_names) as [first|]; [|done].
  apply Forall_forall. intros c (x & <- & Hx)%list_elem_of_In%in_map_iff.
  case_decide; [done|]. rewrite Forall_forall in Hall.
  by apply Hall, list_elem_of_In.
Qed.

Lemma get_values_default_lowercase HDFStore self store table (df : DataFrame) h :
  HDFStore self.(hdf5_file_path) = Returns store →
  get_values_frame self store table = Returns df →
  ∃ df' h',
    get_values HDFStore self None table true true h = (Returns df', h') ∧
    Forall (λ c, lower c = c) (keys df').
Proof.
  intros Hstore Hframe.
  destruct (get_values_normalize_labels true true df h)
    as (df' & h' & Hrun & _ & Hkeys & _).
  exists df', h'. split.
  - rewrite (get_values_frame_normalize _ _ store _ _ _ _ _ df) by done.
    run_M. by rewrite Hrun.
  - rewrite Hkeys. apply rename_label_of_first_match_lower.
    apply Forall_forall. intros c (x & <- & Hx)%list_elem_of_In%in_map_iff.
    apply lower_idemp.
Qed.

Lemma get_values_not_lowercase HDFStore self store table (df : DataFrame)
    variable h :
  HDFStore self.(hdf5_file_path) = Returns store →
  get_values_frame self store table = Returns df →
  lower variable ≠ variable →
  ∃ h', get_values HDFStore self (Some [variable]) table true true h
        = (Raises (Exception {[ variable ]}), h').
Proof.
  intros Hstore Hframe Hvar.
  destruct (get_values_default_lowercase HDFStore self store table df h)
    as (df' & h' & Hrun & Hlower); [done..|].
  exists h'. rewrite get_values_select_after, Hrun. unfold get_values_select.
  assert (variable ∉ keys df') as Hnot.
  { intros Hin. rewrite Forall_forall in Hlower. by apply Hvar, Hlower. }
  assert ((list_to_set [variable] : gset string) ∖ list_to_set (keys df')
          = {[ variable ]}) as ->.
  { apply set_eq. intros x.
    rewrite elem_of_difference, !elem_of_list_to_set, list_elem_of_singleton,
      elem_of_singleton.
    split; [by intros [-> _]|]. by intros ->. }
  rewrite decide_False; [done|]. apply non_empty_singleton_L.
Qed.

(** X3.  With the defaults, every label of the table [get_values] returns is
    its own lowercase form.  So a variable asked for under a name that is
    not lowercase (the name the column has in the store, say) is reported
    missing, by [get_values] and by [get_value], even when the store has
    the column. *)
Theorem get_value_needs_lowercase_name
    (HDFStore : pyval → pyresult (gmap string DataFrame)) (self : Survey)
    (store : gmap string DataFrame) (table : string) (df : DataFrame)
    (variable : string) (known : bool) (h : heap) :
  HDFStore self.(hdf5_file_path) = Returns store →
  get_values_frame self store table = Returns df →
  py_contains self.(tables) table = Returns known →
  (∃ df' h',
     get_values HDFStore self None table true true h = (Returns df', h') ∧
     Forall (λ c, lower c = c) (keys df')) ∧
  (lower variable ≠ variable →
   (∃ h', get_values HDFStore self (Some [variable]) table true true h
          = (Raises (Exception {[ variable ]}), h')) ∧
   (∃ h', get_value HDFStore self (Some variable) table h
          = (Raises (Exception {[ variable ]}), h'))).
Proof.
  intros Hstore Hframe Hknown. split.
  - by apply (get_values_default_lowercase _ _ store _ df).
  - intros Hvar. split.
    + by apply (get_values_not_lowercase _ _ store _ df).
    + unfold get_value. run_M. rewrite Hknown. destruct known.
      * by apply (get_values_not_lowercase _ _ store _ df).
      * by apply (get_values_not_lowercase _ _ store _ df).
Qed.

Lemma get_value_needs_lowercase_name_Salaire :
  ∃ h', get_value example_HDFStore erfs (Some "Salaire") "menage" empty_heap
        = (Raises (Exception {[ "Salaire" ]}), h').
Proof.
  destruct (get_value_needs_lowercase_name example_HDFStore erfs erfs_h5 "menage"
              [("IDENT08", [PInt 1; PInt 2]); ("Salaire", [PInt 450; PInt 610])]
              "Salaire" true empty_heap eq_refl eq_refl eq_refl)
    as [_ H].
  apply H. discriminate.
Defined.

(** ** [get_values] and the shared index *)

Lemma get_values_normalize_heap lowercase rename_ident (df : DataFrame) h1 h2 :
  (get_values_normalize lowercase rename_ident df h1).1
  = (get_values_normalize lowercase rename_ident df h2).1 ∧
  (get_values_normalize lowercase rename_ident df h1).2.(tables_index)
  = h1.(tables_index).
Proof.
  unfold get_values_normalize. destruct rename_ident; [|done].
  rewrite !get_values_rename_ident_find.
  by destruct (find ident_re_match _).
Qed.

Lemma get_values_heap HDFStore self variables table lowercase rename_ident h1 h2 :
  (get_values HDFStore self variables table lowercase rename_ident h1).1
  = (get_values HDFStore self variables table lowercase rename_ident h2).1 ∧
  (get_values HDFStore self variables table lowercase rename_ident h1).2.(tables_index)
  = h1.(tables_index).
Proof.
  unfold get_values. run_M.
  destruct (HDFStore (hdf5_file_path self)) as [store|e]; [|done].
  destruct (get_values_frame self store table) as [df|e]; [|done].
  destruct (get_values_normalize_heap lowercase rename_ident df h1 h2)
    as [Hres Hidx].
  destruct (get_values_normalize lowercase rename_ident df h1) as [[df1|e1] h1'],
    (get_values_normalize lowercase rename_ident df h2) as [[df2|e2] h2'];
    simpl in *; try done.
  by injection Hres as ->.
Qed.

(** X4.  [get_values] neither reads nor writes [tables_index]: what it
    returns or raises is the same in every heap, whatever index earlier
    calls (on this or another survey) have left there, and the index is
    after the call what it was before. *)
Theorem get_values_ignores_tables_index
    (HDFStore : pyval → pyresult (gmap string DataFrame)) (self : Survey)
    (variables : option (list string)) (table : string)
    (lowercase rename_ident : bool) (h1 h2 : heap) :
  (get_values HDFStore self variables table lowercase rename_ident h1).1
  = (get_values HDFStore self variables table lowercase rename_ident h2).1 ∧
  (get_values HDFStore self variables table lowercase rename_ident h1).2.(tables_index)
  = h1.(tables_index).
Proof. apply get_values_heap. Qed.

(** X5.  The selection goes through sets: two lists of variables with the
    same elements, in whatever order and however often repeated, get the
    same answer from [get_values], the same table with the same column
    order or the same exception. *)
Theorem get_values_variables_as_set
    (HDFStore : pyval → pyresult (gmap string DataFrame)) (self : Survey)
    (variables1 variables2 : list string) (table : string)
    (lowercase rename_ident : bool) (h : heap) :
  (list_to_set variables1 : gset string) = list_to_set variables2 →
  get_values HDFStore self (Some variables1) table lowercase rename_ident h
  = get_values HDFStore self (Some variables2) table lowercase rename_ident h.
Proof.
  intros Hset.
  rewrite (get_values_select_after _ _ (Some variables1)),
    (get_values_select_after _ _ (Some variables2)).
  destruct (get_values HDFStore self None table lowercase rename_ident h)
    as [[df|e] h']; [|done].
  unfold get_values_select. by rewrite Hset.
Qed.

Lemma get_values_variables_as_set_T :
  get_values example_HDFStore erfs (Some ["c"; "a"; "c"]) "T" true true empty_heap
  = get_values example_HDFStore erfs (Some ["a"; "c"]) "T" true true empty_heap.
Proof.
  apply (get_values_variables_as_set example_HDFStore erfs ["c"; "a"; "c"]
           ["a"; "c"] "T" true true empty_heap).
  vm_compute. reflexivity.
Defined.

(** ** [get_value] *)

(** X6.  [get_value] without a variable raises before it looks at anything.
    With one, a table that the registry does not know costs a record on the
    log and nothing else: the call returns or raises what
    [get_values([variable], table)] does.  When the registry cannot be
    searched (it is [None], say), the error of the search is raised and the
    store is not opened. *)
Theorem get_value_as_get_values
    (HDFStore : pyval → pyresult (gmap string DataFrame)) (self : Survey)
    (variable : string) (table : string) (h : heap) :
  get_value HDFStore self None table h
  = (Raises (AssertionError variable_is_not_None), h) ∧
  (∀ e, py_contains self.(tables) table = Raises e →
        get_value HDFStore self (Some variable) table h = (Raises e, h)) ∧
  (py_contains self.(tables) table = Returns true →
   get_value HDFStore self (Some variable) table h
   = get_values HDFStore self (Some [variable]) table true true h) ∧
  (py_contains self.(tables) table = Returns false →
   get_value HDFStore self (Some variable) table h
   = get_values HDFStore self (Some [variable]) table true true
       {| tables_index := h.(tables_index);
          log := h.(log) ++ [error_table_not_found table] |} ∧
   (get_value HDFStore self (Some variable) table h).1
   = (get_values HDFStore self (Some [variable]) table true true h).1).
Proof.
  split_and!; try done.
  - intros e He. unfold get_value. run_M. by rewrite He.
  - intros Hk. unfold get_value. run_M. by rewrite Hk.
  - intros Hk.
    assert (get_value HDFStore self (Some variable) table h
            = get_values HDFStore self (Some [variable]) table true true
                {| tables_index := h.(tables_index);
                   log := h.(log) ++ [error_table_not_found table] |}) as Heq.
    { unfold get_value. run_M. by rewrite Hk. }
    split; [done|]. rewrite Heq. apply get_values_heap.
Qed.

Lemma get_value_as_get_values_foyer :
  (get_value example_HDFStore budget (Some "ident") "foyer" empty_heap).1
  = (get_values example_HDFStore budget (Some ["ident"]) "foyer" true true
       empty_heap).1.
Proof.
  destruct (get_value_as_get_values example_HDFStore budget "ident" "foyer"
              empty_heap) as (_ & _ & _ & H).
  by apply H.
Defined.

(** ** [find_tables] and [get_columns]: what happens to the heap *)

Lemma find_tables_loop_store_error HDFStore self variable table tables
    container h e :
  h.(tables_index) !! table = None →
  HDFStore self.(hdf5_file_path) = Raises e →
  find_tables_loop HDFStore self variable (table :: tables) container h
  = (Raises e, h).
Proof.
  intros Hidx Hstore. cbn [find_tables_loop]. run_M. by rewrite Hidx, Hstore.
Qed.

Lemma extends_refl HDFStore self tables h : extends HDFStore self tables h h.
Proof.
  split_and!; [done|by left|]. exists []. by rewrite app_nil_r.
Qed.

Lemma find_tables_loop_extends HDFStore self variable tables : ∀ container h,
  extends HDFStore self tables h
    (find_tables_loop HDFStore self variable tables container h).2.
Proof.
  induction tables as [|table tables IH]; intros container h.
  - apply extends_refl.
  - destruct (h.(tables_index) !! table) as [columns|] eqn:Hidx.
    + rewrite (find_tables_loop_cached _ _ _ _ _ _ _ columns) by done.
      destruct (IH (if bool_decide (variable ∈ columns)
                    then container ++ [table] else container) h)
        as (Hkeep & Hnew & Hlog).
      split_and!; [done| |done].
      intros t cols Ht. destruct (Hnew t cols Ht) as [?|[Hin ?]]; [by left|].
      right. split; [by right|done].
    + destruct (HDFStore self.(hdf5_file_path)) as [store|e] eqn:Hstore.
      2:{ rewrite (find_tables_loop_store_error _ _ _ _ _ _ _ e) by done.
          apply extends_refl. }
      destruct (store !! table) as [df|] eqn:Hdf.
      2:{ rewrite (find_tables_loop_missing _ _ store) by done.
          apply extends_refl. }
      rewrite (find_tables_loop_build _ _ store Hstore _ _ _ _ _ df) by done.
      destruct (IH (if bool_decide (variable ∈ keys df)
                    then container ++ [table] else container)
                  (built table (keys df) h))
        as (Hkeep & Hnew & new & Hlog & Hbuild).
      split_and!.
      * intros t cols Ht. apply Hkeep. simpl.
        rewrite lookup_insert_ne; [done|]. intros ->. congruence.
      * intros t cols Ht. destruct (Hnew t cols Ht) as [Hold|[Hin Hread]].
        -- simpl in Hold. destruct (decide (table = t)) as [<-|Hne].
           ++ rewrite lookup_insert_eq in Hold. injection Hold as <-.
              right. split; [by left|]. by exists store, df.
           ++ rewrite lookup_insert_ne in Hold by done. by left.
        -- right. split; [by right|done].
      * exists (info_building_columns_index table :: new).
        rewrite Hlog. simpl. rewrite <- (assoc_L (++)). split; [done|].
        by constructor.
Qed.

(** X7.  However [find_tables] ends, returning or raising, at whatever
    turn of its loop, it never removes or changes an entry of
    [tables_index]; every entry it adds is the list of labels of a table
    in the store of this survey, under a name it was asked about, and each
    addition is announced on the log. *)
Theorem find_tables_only_extends
    (HDFStore : pyval → pyresult (gmap string DataFrame)) (self : Survey)
    (variable : option string) (tables : option (list string)) (h : heap) :
  ∃ names,
    (∀ l, tables = Some l → names = l) ∧
    extends HDFStore self names h (find_tables HDFStore self variable tables h).2.
Proof.
  unfold find_tables. destruct variable as [variable|].
  2:{ exists (default [] tables). split; [by intros l ->|]. apply extends_refl. }
  destruct tables as [l|].
  - exists l. split; [by intros ? [= ->]|]. run_M. apply find_tables_loop_extends.
  - run_M. destruct (py_iter (tables_of self)) as [names|e].
    + exists names. split; [done|]. apply find_tables_loop_extends.
    + exists []. split; [done|]. apply extends_refl.
Qed.

(** ** [find_tables] without a list of tables *)

Lemma py_iter_mapping v m :
  is_mapping v → as_mapping v = Some m →
  ∃ names, py_iter v = Returns names ∧ NoDup names ∧
           ∀ t, t ∈ names ↔ is_Some (m !! t).
Proof.
  intros Hm Has.
  destruct (py_iteritems_mapping v m Hm Has) as (items & Hit & Hnd & Hperm).
  exists (keys items). split_and!; [|done|].
  - destruct v; simpl in *; try done; by injection Hit as ->.
  - intros t. unfold keys. rewrite Hperm, list_elem_of_fmap. split.
    + intros ([k x] & -> & Hin%elem_of_map_to_list). by eexists.
    + intros [x Hx]. exists (t, x). split; [done|]. by apply elem_of_map_to_list.
Qed.

(** X8.  Table discovery does not follow ["Rdata_table"].  When the registry
    knows a table that the store holds under another key only, and no index
    was built for it, [find_tables] without a list of tables raises the
    assertion error of [get_columns], for every variable; [get_values] on
    the same table name works on the table the attribute names. *)
Theorem find_tables_ignores_Rdata_table
    (HDFStore : pyval → pyresult (gmap string DataFrame)) (self : Survey)
    (store : gmap string DataFrame) (registry attrs : gmap string pyval)
    (table Rdata_table variable : string) (entry : pyval) (df : DataFrame)
    (h : heap) :
  HDFStore self.(hdf5_file_path) = Returns store →
  is_mapping self.(tables) → as_mapping self.(tables) = Some registry →
  registry !! table = Some entry → as_mapping entry = Some attrs →
  attrs !! "Rdata_table" = Some (PStr Rdata_table) →
  store !! table = None → store !! Rdata_table = Some df →
  h.(tables_index) !! table = None →
  (∃ t h', find_tables HDFStore self (Some variable) None h
           = (Raises (AssertionError (table_in_store t)), h')) ∧
  get_values_frame self store table = Returns df.
Proof.
  intros Hstore Hm Hreg Hentry Hattrs Hkey Hnone Hdf Hidx. split.
  - destruct (py_iter_mapping _ _ Hm Hreg) as (names & Hiter & _ & Hnames).
    destruct (find_tables_loop_unresolved HDFStore self store Hstore variable
                names [] h) as (t & h' & _ & _ & Hrun).
    { apply Exists_exists. exists table. split; [by apply Hnames|].
      unfold column_list. by rewrite Hidx, Hnone. }
    exists t, h'. unfold find_tables, tables_of. run_M. by rewrite Hiter.
  - unfold get_values_frame. simpl. rewrite Hnone.
    rewrite (py_getitem_mapping _ _ _ Hreg), Hentry. simpl.
    rewrite (py_getitem_mapping _ _ _ Hattrs), Hkey. simpl. by rewrite Hdf.
Qed.

Lemma find_tables_ignores_Rdata_table_menage :
  ∃ t h', find_tables example_HDFStore erfs (Some "salaire") None empty_heap
          = (Raises (AssertionError (table_in_store t)), h').
Proof.
  apply (find_tables_ignores_Rdata_table example_HDFStore erfs erfs_h5
           {[ "menage" := PDict {[ "Rdata_table" := PStr "menage08" ]} ]}
           {[ "Rdata_table" := PStr "menage08" ]} "menage" "menage08" "salaire"
           (PDict {[ "Rdata_table" := PStr "menage08" ]})
           [("IDENT08", [PInt 1; PInt 2]); ("Salaire", [PInt 450; PInt 610])]
           empty_heap); reflexivity || exact I.
Defined.

(** X9.  Without a list of tables, [find_tables] goes through the names of
    the registry, each once: on a registry that is a mapping it is the call
    with the list of those names, so every name it returns is registered.
    On an empty registry, as right after construction, it returns the empty
    list and touches neither the store (which need not open) nor the
    heap. *)
Theorem find_tables_registered_names
    (HDFStore : pyval → pyresult (gmap string DataFrame)) (self : Survey)
    (registry : gmap string pyval) (variable : string) (h : heap) :
  is_mapping self.(tables) → as_mapping self.(tables) = Some registry →
  (∃ names,
     NoDup names ∧ (∀ t, t ∈ names ↔ is_Some (registry !! t)) ∧
     find_tables HDFStore self (Some variable) None h
     = find_tables HDFStore self (Some variable) (Some names) h ∧
     ∀ found h',
       find_tables HDFStore self (Some variable) None h = (Returns found, h') →
       ∀ t, t ∈ found → is_Some (registry !! t)) ∧
  (registry = ∅ →
   find_tables HDFStore self (Some variable) None h = (Returns [], h)).
Proof.
  intros Hm Hreg.
  destruct (py_iter_mapping _ _ Hm Hreg) as (names & Hiter & Hnd & Hnames).
  assert (find_tables HDFStore self (Some variable) None h
          = find_tables_loop HDFStore self variable names [] h) as Hdefault.
  { unfold find_tables, tables_of. run_M. by rewrite Hiter. }
  split.
  - exists names. split_and!; [done..|].
    intros found h' Hrun t Ht. apply Hnames.
    rewrite Hdefault in Hrun. clear Hdefault Hiter Hnd Hnames.
    assert (∀ container h0,
              find_tables_loop HDFStore self variable names container h0
              = (Returns found, h') →
              t ∈ container ∨ t ∈ names) as Hloop.
    { clear Hrun. induction names as [|n names IH]; intros container h0.
      - simpl. run_M. intros [= <- <-]. by left.
      - assert (∀ (c : list string) h1,
                  find_tables_loop HDFStore self variable names
                    (if bool_decide (variable ∈ c) then container ++ [n]
                     else container) h1 = (Returns found, h') →
                  t ∈ container ∨ t ∈ n :: names) as Hstep.
        { intros c h1 Hrun.
          destruct (IH _ _ Hrun) as [Hin|Hin]; [|right; by right].
          case_bool_decide; [|by left].
          apply elem_of_app in Hin as [Hin|Hin]; [by left|].
          apply list_elem_of_singleton in Hin as ->. right; by left. }
        cbn [find_tables_loop]. run_M.
        destruct (tables_index h0 !! n) as [columns|] eqn:Hidx.
        + rewrite Hidx. apply Hstep.
        + destruct (HDFStore (hdf5_file_path self)) as [store|e]; [|done].
          destruct (store !! n) as [df|]; [|done].
          cbn [tables_index log]. rewrite lookup_insert_eq. apply Hstep. }
    destruct (Hloop [] h Hrun) as [Hin|Hin]; [|done].
    by apply elem_of_nil in Hin.
  - intros ->. rewrite Hdefault.
    destruct names as [|n names]; [done|].
    assert (n ∈ n :: names) as Hn by left.
    apply Hnames in Hn as [x Hx]. by rewrite lookup_empty in Hx.
Qed.

Lemma find_tables_registered_names_fresh :
  find_tables (λ _, Raises IOError)
    {| name := PStr "s"; label := PNone; hdf5_file_path := PNone;
       tables := PDict ∅; informations := ∅ |}
    (Some "ident") None empty_heap
  = (Returns [], empty_heap).
Proof.
  by apply (find_tables_registered_names (λ _, Raises IOError)
              {| name := PStr "s"; label := PNone; hdf5_file_path := PNone;
                 tables := PDict ∅; informations := ∅ |}
              ∅ "ident" empty_heap I eq_refl).
Defined.

(** X10.  [get_columns] goes to the store every time and [find_tables]
    goes to the index first.  For a table that has an entry in
    [tables_index]: [get_columns] still reads the labels from the store, and
    raises when the store has no such table; [find_tables] answers from the
    entry, without a look at the store or a change of the heap. *)
Theorem get_columns_bypasses_index
    (HDFStore : pyval → pyresult (gmap string DataFrame)) (self : Survey)
    (store : gmap string DataFrame) (table variable : string)
    (columns : list string) (h : heap) :
  HDFStore self.(hdf5_file_path) = Returns store →
  h.(tables_index) !! table = Some columns →
  get_columns HDFStore self (Some table) h
  = match store !! table with
    | Some df =>
        (Returns (keys df),
         {| tables_index := h.(tables_index);
            log := h.(log) ++ [info_building_columns_index table] |})
    | None => (Raises (AssertionError (table_in_store table)), h)
    end ∧
  find_tables HDFStore self (Some variable) (Some [table]) h
  = (Returns (if bool_decide (variable ∈ columns) then [table] else []), h).
Proof.
  intros Hstore Hidx. split.
  - run_M. rewrite Hstore. by destruct (store !! table).
  - unfold find_tables. run_M.
    rewrite (find_tables_loop_cached _ _ _ _ _ _ _ columns) by done.
    simpl. run_M. by case_bool_decide.
Qed.

Lemma get_columns_bypasses_index_foyer :
  let h := {| tables_index := {[ "foyer" := ["ident"; "rfr"] ]}; log := [] |} in
  (get_columns example_HDFStore budget (Some "foyer") h).1
  = Returns ["ident"; "revenu"] ∧
  find_tables example_HDFStore budget (Some "rfr") (Some ["foyer"]) h
  = (Returns ["foyer"], h).
Proof.
  destruct (get_columns_bypasses_index example_HDFStore budget budget_h5
              "foyer" "rfr" ["ident"; "rfr"]
              {| tables_index := {[ "foyer" := ["ident"; "rfr"] ]}; log := [] |})
    as [H1 H2]; [reflexivity|vm_compute; reflexivity|].
  split; [by rewrite H1|exact H2].
Defined.

(** ** Surveys read from incomplete documents *)

(** X11.  A survey read from a document without a ["tables"] entry has no
    registry to work on: [to_json] raises [AttributeError]; [insert_table],
    [find_tables] without a list of tables, and [get_value] raise
    [TypeError]; [get_values] still serves a table that is in the store
    under the name asked for, and raises [TypeError] for any other. *)
Theorem survey_without_tables (survey_json : pyval) (doc : gmap string pyval)
    (self : Survey) :
  as_mapping survey_json = Some doc → doc !! "tables" = None →
  create_from_json survey_json = Returns self →
  to_json self = Raises AttributeError ∧
  (∀ table kwargs, insert_table self table kwargs = Raises TypeError) ∧
  (∀ HDFStore variable h,
     find_tables HDFStore self (Some variable) None h = (Raises TypeError, h)) ∧
  (∀ HDFStore variable table h,
     get_value HDFStore self (Some variable) table h = (Raises TypeError, h)) ∧
  (∀ store table,
     get_values_frame self store table
     = match store !! table with
       | Some df => Returns df
       | None => Raises TypeError
       end).
Proof.
  intros Hdoc Htables Hcreate.
  destruct (create_from_json_invariant _ _ Hcreate) as (_ & _ & Hget).
  rewrite (py_get_mapping _ _ _ Hdoc), Htables in Hget.
  injection Hget as Hnone. simpl in Hnone.
  split_and!.
  - unfold to_json. by rewrite <- Hnone.
  - intros table kwargs. unfold insert_table. by rewrite <- Hnone.
  - intros HDFStore variable h. unfold find_tables, tables_of. run_M.
    by rewrite <- Hnone.
  - intros HDFStore variable table h. unfold get_value. run_M.
    by rewrite <- Hnone.
  - intros store table. unfold get_values_frame. simpl.
    destruct (store !! table); [done|]. by rewrite <- Hnone.
Qed.

Lemma survey_without_tables_example :
  ∃ self, create_from_json (PDict no_tables_document) = Returns self ∧
          to_json self = Raises AttributeError.
Proof.
  eexists. split; [reflexivity|].
  eapply (survey_without_tables (PDict no_tables_document) no_tables_document);
    reflexivity.
Defined.

(** ** Documents *)

Lemma create_from_json_mapping survey_json doc :
  as_mapping survey_json = Some doc →
  create_from_json survey_json
  = (kwargs ← unpack_kwargs (default PNone (doc !! "informations"));
     self ← __init__ (default PNone (doc !! "name"))
              (default PNone (doc !! "label"))
              (default PNone (doc !! "hdf5_file_path")) kwargs;
     Returns (set_tables self (default PNone (doc !! "tables")))).
Proof.
  intros Hdoc. unfold create_from_json.
  by rewrite !(py_get_mapping _ _ _ Hdoc).
Qed.

(** X12.  [create_from_json] reads five keys and nothing else: two
    documents, each a [dict] or an [OrderedDict], that agree on ["name"],
    ["label"], ["hdf5_file_path"], ["informations"] and ["tables"] give the
    same survey or the same exception, where a key that is absent and a key
    that holds [None] count as the same. *)
Theorem create_from_json_reads_five_keys (survey_json1 survey_json2 : pyval)
    (doc1 doc2 : gmap string pyval) :
  as_mapping survey_json1 = Some doc1 → as_mapping survey_json2 = Some doc2 →
  Forall (λ k, default PNone (doc1 !! k) = default PNone (doc2 !! k))
    ["name"; "label"; "hdf5_file_path"; "informations"; "tables"] →
  create_from_json survey_json1 = create_from_json survey_json2.
Proof.
  intros Hdoc1 Hdoc2 Hagree.
  rewrite (create_from_json_mapping _ _ Hdoc1), (create_from_json_mapping _ _ Hdoc2).
  repeat (apply Forall_cons in Hagree as [-> Hagree]). done.
Qed.

Lemma create_from_json_reads_five_keys_example :
  create_from_json
    (PDict {[ "name" := PStr "s"; "informations" := PDict ∅; "label" := PNone;
              "comment" := PStr "not read" ]})
  = create_from_json (POrderedDict [("informations", PDict ∅); ("name", PStr "s")]).
Proof.
  eapply create_from_json_reads_five_keys; [reflexivity..|].
  repeat constructor.
Defined.

Lemma create_from_json_document (self : Survey) (tables_value : pyval) :
  self.(name) ≠ PNone →
  Forall (λ p, self.(informations) !! p = None) init_parameters →
  create_from_json (POrderedDict [
    ("hdf5_file_path", self.(hdf5_file_path));
    ("label", self.(label));
    ("name", self.(name));
    ("tables", tables_value);
    ("informations", POrderedDict (sorted (map_to_list self.(informations))))])
  = Returns (set_tables self tables_value).
Proof.
  intros Hname Hinfo.
  destruct (od_lookup_document self.(hdf5_file_path) self.(label) self.(name)
              tables_value
              (POrderedDict (sorted (map_to_list self.(informations)))))
    as (Hp & Hl & Hn & Ht & Hi).
  unfold create_from_json, py_get. rewrite Hp, Hl, Hn, Ht, Hi.
  cbn [mbind pyresult_bind from_option id].
  rewrite unpack_kwargs_sorted by done.
  cbn [mbind pyresult_bind].
  rewrite init_Returns by done.
  by destruct self.
Qed.

(** X13.  A document written by [to_json] is stable: read back with
    [create_from_json] and written again, it comes out the same, entry for
    entry and in the same order, for every catalog. *)
Theorem to_json_stable (self : Survey) :
  catalog self →
  ∃ doc self',
    to_json self = Returns doc ∧
    create_from_json doc = Returns self' ∧
    to_json self' = Returns doc.
Proof.
  intros [Hname Htables Hentries Hinfo].
  destruct (is_mapping_as_mapping _ Htables) as [registry Hreg].
  eexists _, _. split; [by apply to_json_mapping|].
  split; [by apply create_from_json_document|].
  rewrite (to_json_mapping _ registry).
  - done.
  - simpl. apply keys_sorted_NoDup, NoDup_fst_map_to_list.
  - simpl. by rewrite sorted_map_to_list.
Qed.

Lemma to_json_stable_erfs :
  ∃ doc self',
    to_json erfs = Returns doc ∧ create_from_json doc = Returns self' ∧
    to_json self' = Returns doc.
Proof. exact (to_json_stable erfs catalog_erfs). Defined.

(** ** [insert_table]: repeating and reordering registrations *)

(** X14.  Registering a table a second time with the same attributes
    changes nothing: after the second call every table has the attributes
    it had after the first. *)
Theorem insert_table_idempotent (self : Survey) (table : string)
    (kwargs : gmap string pyval) :
  catalog self →
  ∃ self1 self2,
    insert_table self table kwargs = Returns self1 ∧
    insert_table self1 table kwargs = Returns self2 ∧
    ∀ t, attributes_of self2 t = attributes_of self1 t.
Proof.
  intros Hcat.
  destruct (insert_table_catalog self table kwargs Hcat)
    as (self1 & Hcall1 & Hcat1 & Hattrs1 & Hother1 & _).
  destruct (insert_table_catalog self1 table kwargs Hcat1)
    as (self2 & Hcall2 & Hcat2 & Hattrs2 & Hother2 & _).
  exists self1, self2. split_and!; [done..|].
  intros t. destruct (decide (t = table)) as [->|Hne]; [|by apply Hother2].
  rewrite Hattrs2, Hattrs1. simpl. f_equal.
  by rewrite (assoc_L (∪)), (idemp_L (∪)).
Qed.

Lemma insert_table_idempotent_erfs :
  ∃ self1 self2,
    insert_table erfs "menage" {[ "year" := PInt 2008 ]} = Returns self1 ∧
    insert_table self1 "menage" {[ "year" := PInt 2008 ]} = Returns self2 ∧
    ∀ t, attributes_of self2 t = attributes_of self1 t.
Proof.
  exact (insert_table_idempotent erfs "menage" {[ "year" := PInt 2008 ]}
           catalog_erfs).
Defined.



(** ** [load] *)

(** X16.  A metadata file whose name has a character beyond ASCII cannot be
    loaded, though its document is a good one: when the file parses to a
    mapping that [create_from_json] builds a survey from, [load] returns
    that survey, with one record on the log, if the name is an ASCII string;
    if the name is a string with a byte beyond 127, [load] raises
    [UnicodeEncodeError] from the log message and leaves the heap as it
    was. *)
Theorem load_needs_ascii_name (json_load : string → pyresult pyval)
    (file_path : string) (survey_json : pyval) (doc : gmap string pyval)
    (survey_name : string) (self : Survey) (h : heap) :
  json_load file_path = Returns survey_json →
  as_mapping survey_json = Some doc →
  doc !! "name" = Some (PStr survey_name) →
  create_from_json survey_json = Returns self →
  self.(name) = PStr survey_name ∧
  load json_load file_path h
  = if is_ascii survey_name
    then (Returns self,
          {| tables_index := h.(tables_index);
             log := h.(log) ++ [info_getting_survey_information (PStr survey_name)] |})
    else (Raises UnicodeEncodeError, h).
Proof.
  intros Hload Hdoc Hname Hcreate. split.
  - rewrite (create_from_json_mapping _ _ Hdoc), Hname in Hcreate.
    destruct (unpack_kwargs _) as [kwargs|]; [|done].
    cbn [mbind pyresult_bind from_option id] in Hcreate.
    rewrite init_Returns in Hcreate by done.
    by injection Hcreate as <-.
  - unfold load. run_M.
    rewrite Hload, (py_get_mapping _ _ _ Hdoc), Hname. simpl.
    destruct (is_ascii survey_name); [|done]. by rewrite Hcreate.
Qed.

Lemma load_needs_ascii_name_example :
  load (λ _, Returns (PDict {[ "name" := PStr "enquête"; "informations" := PDict ∅ ]}))
    "survey.json" empty_heap
  = (Raises UnicodeEncodeError, empty_heap).
Proof.
  apply (load_needs_ascii_name
           (λ _, Returns (PDict {[ "name" := PStr "enquête"; "informations" := PDict ∅ ]}))
           "survey.json"
           (PDict {[ "name" := PStr "enquête"; "informations" := PDict ∅ ]})
           {[ "name" := PStr "enquête"; "informations" := PDict ∅ ]}
           "enquête"
           {| name := PStr "enquête"; label := PNone; hdf5_file_path := PNone;
              tables := PNone; informations := ∅ |}
           empty_heap); reflexivity.
Defined.

(** ** The names [ident_re] matches *)

Lemma at_dollar_true e :
  at_dollar e = true ↔ e = EmptyString ∨ e = String "010"%char EmptyString.
Proof.
  destruct e as [|c [|c' e]]; simpl.
  - split; [by left|done].
  - rewrite Ascii.eqb_eq. split; [intros ->; by right|].
    by intros [?|[= ->]].
  - split; [done|]. by intros [?|?].
Qed.

Lemma match_literal_i_Some lit : ∀ s rest,
  match_literal_i lit s = Some rest ↔
  ∃ p, s = (p ++ rest)%string ∧ lower p = lower lit.
Proof.
  induction lit as [|a lit IH]; intros s rest; simpl.
  - split.
    + intros [= ->]. by exists EmptyString.
    + intros (p & -> & Hp). by destruct p.
  - destruct s as [|c s].
    + split; [done|]. intros (p & Hs & Hp). by destruct p.
    + destruct (Ascii.eqb (lower_char a) (lower_char c)) eqn:Hac.
      * apply Ascii.eqb_eq in Hac. rewrite IH. split.
        -- intros (p & -> & Hp). exists (String c p). simpl.
           by rewrite Hp, Hac.
        -- intros (p & Hs & Hp). destruct p as [|c' p]; [done|].
           simpl in Hs, Hp. injection Hs as -> ->. injection Hp as _ Hp.
           by exists p.
      * apply Ascii.eqb_neq in Hac. split; [done|].
        intros (p & Hs & Hp). destruct p as [|c' p]; [done|].
        simpl in Hs, Hp. injection Hs as -> ->. injection Hp as Hc _.
        congruence.
Qed.

Lemma match_digits_dollar_true hi : ∀ lo s,
  match_digits_dollar lo hi s = true ↔
  ∃ d e, s = (d ++ e)%string ∧
         (lo ≤ String.length d ≤ hi)%nat ∧
         Forall (λ c, is_digit c = true) (list_ascii_of_string d) ∧
         at_dollar e = true.
Proof.
  induction hi as [|hi IH]; intros lo s.
  - cbn [match_digits_dollar]. rewrite orb_false_r, andb_true_iff, Nat.eqb_eq.
    split.
    + intros [-> Hs]. exists EmptyString, s. simpl.
      split_and!; try done; try lia; by constructor.
    + intros (d & e & -> & [Hlo Hhi] & _ & He).
      destruct d; simpl in *; [|lia]. split; [lia|done].
  - cbn [match_digits_dollar]. rewrite orb_true_iff, andb_true_iff, Nat.eqb_eq.
    split.
    + intros [[-> Hs]|Hrec].
      * exists EmptyString, s. simpl.
        split_and!; try done; try lia; by constructor.
      * destruct s as [|c s]; [done|].
        apply andb_true_iff in Hrec as [Hc Hrec].
        apply IH in Hrec as (d & e & -> & [Hlo Hhi] & Hd & He).
        exists (String c d), e. simpl.
        split_and!; try done; try lia; by constructor.
    + intros (d & e & -> & [Hlo Hhi] & Hd & He).
      destruct d as [|c d]; simpl in *.
      * left. split; [lia|done].
      * right. apply Forall_cons in Hd as [Hc Hd].
        rewrite Hc. simpl. apply IH. exists d, e.
        split_and!; try done; lia.
Qed.

(** X17.  The names [ident_re] matches are those made of the letters
    [ident] in any case, then two to four decimal digits, then nothing more
    or one final newline. *)
Theorem ident_re_match_names (s : string) :
  ident_re_match s = true ↔
  ∃ p d e,
    s = (p ++ d ++ e)%string ∧
    lower p = "ident" ∧
    (2 ≤ String.length d ≤ 4)%nat ∧
    Forall (λ c, is_digit c = true) (list_ascii_of_string d) ∧
    (e = EmptyString ∨ e = String "010"%char EmptyString).
Proof.
  unfold ident_re_match. split.
  - destruct (match_literal_i "ident" s) as [rest|] eqn:Hlit; [|done].
    apply match_literal_i_Some in Hlit as (p & -> & Hp).
    intros (d & e & -> & Hlen & Hd & He%at_dollar_true)%match_digits_dollar_true.
    by exists p, d, e.
  - intros (p & d & e & -> & Hp & Hlen & Hd & He).
    assert (match_literal_i "ident" (p ++ d ++ e)%string = Some (d ++ e)%string)
      as ->.
    { apply match_literal_i_Some. by exists p. }
    apply match_digits_dollar_true. exists d, e. by rewrite at_dollar_true.
Qed.

(** ** Surveys built through the methods *)

Lemma insert_tables_catalog registrations : ∀ self,
  catalog self →
  ∃ self',
    insert_tables self registrations = Returns self' ∧ catalog self' ∧
    self'.(name) = self.(name) ∧ self'.(label) = self.(label) ∧
    self'.(hdf5_file_path) = self.(hdf5_file_path) ∧
    self'.(informations) = self.(informations) ∧
    ∀ t, is_Some (attributes_of self' t) ↔
         is_Some (attributes_of self t) ∨ t ∈ registrations.*1.
Proof.
  induction registrations as [|[table kwargs] registrations IH]; intros self Hcat.
  - exists self. split_and!; try done. intros t. split; [by left|].
    intros [?|Hin]; [done|]. by apply elem_of_nil in Hin.
  - destruct (insert_table_catalog self table kwargs Hcat)
      as (self1 & Hcall & Hcat1 & Hattrs & Hother & Hn & Hl & Hp & Hi).
    destruct (IH self1 Hcat1) as (self' & Hrun & Hcat' & Hn' & Hl' & Hp' & Hi' & Hreg).
    exists self'. cbn [insert_tables fst snd]. rewrite Hcall.
    split_and!; try congruence; try done.
    intros t. rewrite Hreg, fmap_cons, elem_of_cons. cbn [fst].
    destruct (decide (t = table)) as [->|Hne].
    + rewrite Hattrs. split; [intros _; right; by left|by left].
    + rewrite (Hother t Hne). split.
      * intros [?|?]; [by left|right; by right].
      * intros [?|[?|?]]; [by left|done|by right].
Qed.

(** X18.  Every survey built by [__init__] with a name and then any number
    of [insert_table] calls is a catalog: all the calls return, the name,
    label, store path and informations are those given to [__init__], the
    registered tables are exactly the ones named in the calls, and
    [to_json] returns a document for it. *)
Theorem constructed_surveys_are_catalogs (survey_name survey_label path : pyval)
    (kwargs : gmap string pyval)
    (registrations : list (string * gmap string pyval)) :
  survey_name ≠ PNone →
  Forall (λ p, kwargs !! p = None) init_parameters →
  ∃ self0 self,
    __init__ survey_name survey_label path kwargs = Returns self0 ∧
    insert_tables self0 registrations = Returns self ∧
    catalog self ∧
    self.(name) = survey_name ∧ self.(label) = survey_label ∧
    self.(hdf5_file_path) = path ∧ self.(informations) = kwargs ∧
    (∀ t, is_Some (attributes_of self t) ↔ t ∈ registrations.*1) ∧
    ∃ doc, to_json self = Returns doc.
Proof.
  intros Hname Hkwargs.
  pose proof (init_Returns survey_name survey_label path kwargs Hname) as Hinit.
  pose proof (init_catalog _ _ _ _ _ Hkwargs Hinit) as Hcat0.
  destruct (insert_tables_catalog registrations _ Hcat0)
    as (self & Hrun & Hcat & Hn & Hl & Hp & Hi & Hreg).
  eexists _, self. split_and!; try done.
  - intros t. rewrite Hreg. unfold attributes_of. simpl.
    rewrite lookup_empty. simpl. split; [|by right].
    intros [Hsome|?]; [|done]. by destruct Hsome.
  - destruct (is_mapping_as_mapping _ (catalog_tables _ Hcat)) as [registry Hr].
    eexists. apply to_json_mapping; [by apply Hcat|done].
Qed.

Lemma constructed_surveys_are_catalogs_example :
  ∃ self0 self,
    __init__ (PStr "erfs_2008") PNone (PStr "erfs.h5") {[ "year" := PInt 2008 ]}
    = Returns self0 ∧
    insert_tables self0
      [("menage", {[ "Rdata_table" := PStr "menage08" ]}); ("foyer", ∅);
       ("menage", {[ "year" := PInt 2008 ]})]
    = Returns self ∧
    catalog self.
Proof.
  destruct (constructed_surveys_are_catalogs (PStr "erfs_2008") PNone
              (PStr "erfs.h5") {[ "year" := PInt 2008 ]}
              [("menage", {[ "Rdata_table" := PStr "menage08" ]}); ("foyer", ∅);
               ("menage", {[ "year" := PInt 2008 ]})])
    as (self0 & self & H1 & H2 & H3 & _); [done|by repeat constructor|].
  by exists self0, self.
Defined.
